(** * Study pages of comit-space-client: the create form and the edit form

    Shallow embedding of
      - src/app/(main)/study/open/page.tsx        (component [OpenStudy])
      - src/app/(main)/mystudy/[id]/edit/page.tsx (component [StudyEditPage])

    The two components share, word for word, the tag handlers
    ([handleTagChange], [handleTagAdd], [handleDuplicateTag], the [+] and
    [Reset] buttons) and the time handlers ([onChangeStartTime],
    [onChangeEndTime]); they are embedded once.  Event handlers that only
    read and write component state are functions [PageState -> PageState];
    the asynchronous flows ([onSubmit], [fetchStudy]) run in a small monad
    that threads the state, records the calls made to the collaborators and
    propagates JavaScript exceptions. *)

From Stdlib Require Import Ascii ZArith.
From stdpp Require Import base strings list gmap.

Local Open Scope string_scope.
Local Open Scope nat_scope.
Local Open Scope list_scope.

(** ** JavaScript strings

    Strings are Rocq strings, read as UTF-8 (the literals of the source are
    kept as they are).  [trim] is [String.prototype.trim]: it removes, at
    both ends, the characters ECMAScript calls WhiteSpace or LineTerminator.
    In UTF-8 these are one, two or three bytes long:
      - U+0009..U+000D and U+0020: one byte;
      - U+00A0: C2 A0;
      - U+1680: E1 9A 80;
      - U+2000..U+200A, U+2028, U+2029, U+202F: E2 80 80..8A, A8, A9, AF;
      - U+205F: E2 81 9F;  U+3000: E3 80 80;  U+FEFF: EF BB BF. *)

Module Js.

Definition isWhiteSpace1 (c : ascii) : bool :=
  let n := nat_of_ascii c in
  bool_decide (9 ≤ n ≤ 13) || bool_decide (n = 32).

Definition isWhiteSpace2 (c1 c2 : ascii) : bool :=
  bool_decide (nat_of_ascii c1 = 194 ∧ nat_of_ascii c2 = 160).

Definition isWhiteSpace3 (c1 c2 c3 : ascii) : bool :=
  let n1 := nat_of_ascii c1 in
  let n2 := nat_of_ascii c2 in
  let n3 := nat_of_ascii c3 in
  bool_decide (n1 = 225 ∧ n2 = 154 ∧ n3 = 128)
  || bool_decide (n1 = 226 ∧ n2 = 128
                  ∧ (128 ≤ n3 ≤ 138 ∨ n3 = 168 ∨ n3 = 169 ∨ n3 = 175))
  || bool_decide (n1 = 226 ∧ n2 = 129 ∧ n3 = 159)
  || bool_decide (n1 = 227 ∧ n2 = 128 ∧ n3 = 128)
  || bool_decide (n1 = 239 ∧ n2 = 187 ∧ n3 = 191).

(** Drops the longest prefix made of sequences accepted by [ws1], [ws2] or
    [ws3]. *)
Fixpoint strip (ws1 : ascii → bool) (ws2 : ascii → ascii → bool)
    (ws3 : ascii → ascii → ascii → bool) (s : string) : string :=
  match s with
  | EmptyString => EmptyString
  | String c1 s1 =>
      if ws1 c1 then strip ws1 ws2 ws3 s1
      else match s1 with
           | EmptyString => s
           | String c2 s2 =>
               if ws2 c1 c2 then strip ws1 ws2 ws3 s2
               else match s2 with
                    | EmptyString => s
                    | String c3 s3 =>
                        if ws3 c1 c2 c3 then strip ws1 ws2 ws3 s3 else s
                    end
           end
  end.

Definition trimStart (s : string) : string :=
  strip isWhiteSpace1 isWhiteSpace2 isWhiteSpace3 s.

(** At the end of the string the bytes of a character are met last byte
    first. *)
Definition trimEnd (s : string) : string :=
  String.rev
    (strip isWhiteSpace1 (λ c2 c1, isWhiteSpace2 c1 c2)
       (λ c3 c2 c1, isWhiteSpace3 c1 c2 c3) (String.rev s)).

Definition trim (s : string) : string := trimEnd (trimStart s).

(** [new Set(array).size]: the number of distinct entries of the array
    (strings are compared by value). *)
Definition Set_size (array : list string) : nat :=
  size (list_to_set array : gset string).

(** Truthiness of a string: every string but the empty one. *)
Definition truthy (s : string) : bool := bool_decide (s ≠ "").

End Js.

(** ** Component state *)

(** A [Date] is a time value (milliseconds since the epoch) or the invalid
    date. *)
Inductive Date :=
| DateAt (timeValue : Z)
| InvalidDate.

(** A browser [File] picked in the file input. *)
Record File := { fileName : string }.

(** An entry of react-hook-form's [formState.errors]. *)
Record FieldError := { type : string; message : string }.

(** The values held by [useForm<StudyForm>]; a field that was never set is
    [undefined].  [defaultValues] sets [tags] to the empty array. *)
Module Form.
Record values := {
  imageSrc : option string;
  title : option string;
  day : option string;
  startTime : option string;
  endTime : option string;
  campus : option string;
  level : option string;
  tags : list string;
  description : option string
}.

Definition defaultValues : values :=
  {| imageSrc := None; title := None; day := None; startTime := None;
     endTime := None; campus := None; level := None; tags := [];
     description := None |}.
End Form.

(** The state of a page: the form ([values], and the [tags] entry of
    [formState.errors]) and the [useState] cells.  [description],
    [isLoading] and [isRecruiting] are cells of the edit page only. *)
Record PageState := {
  values : Form.values;
  errors_tags : option FieldError;
  imageFile : option File;
  image : string;
  stackError : string;
  currentTag : string;
  startTime : option Date;
  endTime : option Date;
  description : string;
  isLoading : bool;
  isRecruiting : bool
}.

Definition initialState : PageState :=
  {| values := Form.defaultValues; errors_tags := None; imageFile := None;
     image := ""; stackError := ""; currentTag := ""; startTime := None;
     endTime := None; description := ""; isLoading := true;
     isRecruiting := true |}.

(** *** Setters of the [useState] cells *)

Definition setImageFile (x : option File) (st : PageState) : PageState :=
  {| values := values st; errors_tags := errors_tags st; imageFile := x;
     image := image st; stackError := stackError st;
     currentTag := currentTag st; startTime := startTime st;
     endTime := endTime st; description := description st;
     isLoading := isLoading st; isRecruiting := isRecruiting st |}.

Definition setImage (x : string) (st : PageState) : PageState :=
  {| values := values st; errors_tags := errors_tags st;
     imageFile := imageFile st; image := x; stackError := stackError st;
     currentTag := currentTag st; startTime := startTime st;
     endTime := endTime st; description := description st;
     isLoading := isLoading st; isRecruiting := isRecruiting st |}.

Definition setTagError (x : string) (st : PageState) : PageState :=
  {| values := values st; errors_tags := errors_tags st;
     imageFile := imageFile st; image := image st; stackError := x;
     currentTag := currentTag st; startTime := startTime st;
     endTime := endTime st; description := description st;
     isLoading := isLoading st; isRecruiting := isRecruiting st |}.

Definition setCurrentTag (x : string) (st : PageState) : PageState :=
  {| values := values st; errors_tags := errors_tags st;
     imageFile := imageFile st; image := image st;
     stackError := stackError st; currentTag := x;
     startTime := startTime st; endTime := endTime st;
     description := description st; isLoading := isLoading st;
     isRecruiting := isRecruiting st |}.

Definition setStartTime (x : option Date) (st : PageState) : PageState :=
  {| values := values st; errors_tags := errors_tags st;
     imageFile := imageFile st; image := image st;
     stackError := stackError st; currentTag := currentTag st;
     startTime := x; endTime := endTime st;
     description := description st; isLoading := isLoading st;
     isRecruiting := isRecruiting st |}.

Definition setEndTime (x : option Date) (st : PageState) : PageState :=
  {| values := values st; errors_tags := errors_tags st;
     imageFile := imageFile st; image := image st;
     stackError := stackError st; currentTag := currentTag st;
     startTime := startTime st; endTime := x;
     description := description st; isLoading := isLoading st;
     isRecruiting := isRecruiting st |}.

Definition setDescription (x : string) (st : PageState) : PageState :=
  {| values := values st; errors_tags := errors_tags st;
     imageFile := imageFile st; image := image st;
     stackError := stackError st; currentTag := currentTag st;
     startTime := startTime st; endTime := endTime st; description := x;
     isLoading := isLoading st; isRecruiting := isRecruiting st |}.

Definition setIsLoading (x : bool) (st : PageState) : PageState :=
  {| values := values st; errors_tags := errors_tags st;
     imageFile := imageFile st; image := image st;
     stackError := stackError st; currentTag := currentTag st;
     startTime := startTime st; endTime := endTime st;
     description := description st; isLoading := x;
     isRecruiting := isRecruiting st |}.

Definition setIsRecruiting (x : bool) (st : PageState) : PageState :=
  {| values := values st; errors_tags := errors_tags st;
     imageFile := imageFile st; image := image st;
     stackError := stackError st; currentTag := currentTag st;
     startTime := startTime st; endTime := endTime st;
     description := description st; isLoading := isLoading st;
     isRecruiting := x |}.

(** *** The form API: [getValues], [setValue], [setError], [clearErrors] *)

Definition withValues (f : Form.values → Form.values) (st : PageState)
  : PageState :=
  {| values := f (values st); errors_tags := errors_tags st;
     imageFile := imageFile st; image := image st;
     stackError := stackError st; currentTag := currentTag st;
     startTime := startTime st; endTime := endTime st;
     description := description st; isLoading := isLoading st;
     isRecruiting := isRecruiting st |}.

(** The fields the handlers write, as the first argument of [setValue]. *)
Inductive FieldValue :=
| V_imageSrc (x : string)
| V_title (x : string)
| V_day (x : string)
| V_startTime (x : string)
| V_endTime (x : string)
| V_campus (x : string)
| V_level (x : string)
| V_tags (x : list string)
| V_description (x : string).

Definition Form_set (fv : FieldValue) (v : Form.values) : Form.values :=
  let 'Form.Build_values i t d s e c l g ds := v in
  match fv with
  | V_imageSrc x => Form.Build_values (Some x) t d s e c l g ds
  | V_title x => Form.Build_values i (Some x) d s e c l g ds
  | V_day x => Form.Build_values i t (Some x) s e c l g ds
  | V_startTime x => Form.Build_values i t d (Some x) e c l g ds
  | V_endTime x => Form.Build_values i t d s (Some x) c l g ds
  | V_campus x => Form.Build_values i t d s e (Some x) l g ds
  | V_level x => Form.Build_values i t d s e c (Some x) g ds
  | V_tags x => Form.Build_values i t d s e c l x ds
  | V_description x => Form.Build_values i t d s e c l g (Some x)
  end.

(** [setValue(name, value)], called without options: the value is stored,
    nothing is validated and no error is touched. *)
Definition setValue (fv : FieldValue) : PageState → PageState :=
  withValues (Form_set fv).

(** [getValues('tags')]; [watch('tags')] reads the same value at the render
    the handler was created in. *)
Definition getValues_tags (st : PageState) : list string :=
  Form.tags (values st).

Definition setError_tags (e : FieldError) (st : PageState) : PageState :=
  {| values := values st; errors_tags := Some e; imageFile := imageFile st;
     image := image st; stackError := stackError st;
     currentTag := currentTag st; startTime := startTime st;
     endTime := endTime st; description := description st;
     isLoading := isLoading st; isRecruiting := isRecruiting st |}.

Definition clearErrors_tags (st : PageState) : PageState :=
  {| values := values st; errors_tags := None; imageFile := imageFile st;
     image := image st; stackError := stackError st;
     currentTag := currentTag st; startTime := startTime st;
     endTime := endTime st; description := description st;
     isLoading := isLoading st; isRecruiting := isRecruiting st |}.

(** ** Tag editor (both pages) *)

(** The part of a [KeyboardEvent] the handler reads:
    [e.currentTarget.value] and [e.key]. *)
Record KeyboardEvent := { currentTarget_value : string; key : string }.

Definition capacityMessage : string :=
  "스택은 최대 4개까지만 입력 가능합니다".

Definition duplicateError : FieldError :=
  {| type := "Duplicate"; message := "중복 스택이 존재합니다" |}.

Definition handleTagChange (target_value : string) : PageState → PageState :=
  setCurrentTag target_value.

(** [getValues('tags') ? newTag : [currentTag]] always takes the first
    branch: an array, even an empty one, is truthy. *)
Definition handleDuplicateTag (st : PageState) : PageState :=
  let newTag := getValues_tags st ++ [currentTag st] in
  let st' :=
    if decide (Js.Set_size newTag = length (getValues_tags st))
    then setError_tags duplicateError st
    else setValue (V_tags newTag) (clearErrors_tags st) in
  setCurrentTag "" st'.

Definition handleTagAdd (e : KeyboardEvent) (st : PageState) : PageState :=
  let newTag := Js.trim (currentTarget_value e) in
  let watchedTags := getValues_tags st in
  let st1 :=
    if decide (length watchedTags = 4)
    then (if decide (newTag ≠ "")
          then setTagError capacityMessage st
          else setTagError "" st)
    else st in
  if decide (key e = "Enter" ∧ newTag ≠ "")
  then (if decide (length watchedTags ≠ 4)
        then handleDuplicateTag st1
        else setCurrentTag "" st1)
  else st1.

(** The [+] button: [disabled] as in the JSX, [onClick={handleDuplicateTag}].
    A disabled button does not fire its click handler. *)
Definition plusButton_disabled (st : PageState) : bool :=
  bool_decide (Js.trim (currentTag st) = "")
  || bool_decide (4 ≤ length (getValues_tags st)).

Definition plusButton_onClick (st : PageState) : PageState :=
  if plusButton_disabled st then st else handleDuplicateTag st.

(** The [Reset] button. *)
Definition resetButton_onClick (st : PageState) : PageState :=
  setValue (V_tags []) (clearErrors_tags (setTagError "" st)).

(** What the user can do to the tag editor. *)
Inductive TagEvent :=
| TagChange (target_value : string)
| TagKeyUp (e : KeyboardEvent)
| PlusClick
| ResetClick.

Definition tagStep (st : PageState) (ev : TagEvent) : PageState :=
  match ev with
  | TagChange v => handleTagChange v st
  | TagKeyUp e => handleTagAdd e st
  | PlusClick => plusButton_onClick st
  | ResetClick => resetButton_onClick st
  end.

Definition tagRun (evs : list TagEvent) (st : PageState) : PageState :=
  foldl tagStep st evs.

(** ** Time selector (both pages)

    [formatDateToTime] comes from [@/components/ui/time-picker-utils], which
    is not part of the sources at hand: the handlers are embedded over any
    such function. *)

Section TimeSelector.

Variable formatDateToTime : Date → string.

Definition onChangeStartTime (date : option Date) (st : PageState)
  : PageState :=
  match date with
  | Some d => setStartTime (Some d) (setValue (V_startTime (formatDateToTime d)) st)
  | None => st
  end.

Definition onChangeEndTime (date : option Date) (st : PageState)
  : PageState :=
  match date with
  | Some d => setEndTime (Some d) (setValue (V_endTime (formatDateToTime d)) st)
  | None => st
  end.

End TimeSelector.

(** ** Image picker (both pages)

    [URL.createObjectURL] is passed in; [targetFiles] is the [FileList] of
    the input. *)
Definition handleFileChange (createObjectURL : File → string)
    (targetFiles : list File) (st : PageState) : PageState :=
  match targetFiles with
  | file0 :: _ =>
      let selectedFile := createObjectURL file0 in
      setImageFile (Some file0)
        (setValue (V_imageSrc selectedFile) (setImage selectedFile st))
  | [] => st
  end.

(** ** Collaborators of the asynchronous flows *)

(** The constants of [ROUTES] and [API_ENDPOINTS] are kept symbolic. *)
Inductive Url :=
| ROUTES_LOGIN_url
| ROUTES_STUDY_index_url.

Inductive ApiEndpoint :=
| STUDY_CREATE
| STUDY_RETRIEVE (id : Z).

(** Values of the objects sent to the backend; an object is a finite map
    from property names to values, so that spreading [...data] and then
    listing properties is a sequence of inserts over [data]. *)
Inductive JValue :=
| JString (s : string)
| JNumber (n : Z)
| JBoolean (b : bool)
| JStrings (l : list string).

(** The second argument of [fetchData]; [body] holds the object handed to
    [JSON.stringify]. *)
Record RequestInit := {
  method : option string;
  body : option (gmap string JValue);
  headers : list (string * string);
  credentials : option string;
  cache : option string
}.

(** [json.data] of the retrieve endpoint, the fields the page reads. *)
Record Study := {
  study_imageSrc : string;
  study_title : string;
  study_day : string;
  study_startTime : string;
  study_endTime : string;
  study_campus : string;
  study_level : string;
  study_tags : list string;
  study_description : string;
  study_isRecruiting : bool
}.

(** A [Response]: [res.ok], [res.status] and what [res.json()] resolves to
    ([None] when it rejects). *)
Record Response := {
  ok : bool;
  status : Z;
  json_data : option Study
}.

(** What [fileHandler.upload] resolves to: [supabaseFileData.url], and the
    object [delete()] and [commit()] are called on. *)
Record SupabaseFile := { supabaseFileData_url : string }.

Record ToastProps := {
  toast_title : string;
  toast_description : string;
  toast_variant : option string
}.

(** JavaScript exceptions: the error [notFound()] of [next/navigation]
    throws, [new Error(message)], and a rejected promise of a
    collaborator. *)
Inductive Exn :=
| NEXT_NOT_FOUND
| Error (message : string)
| Rejected (collaborator : string).

(** Calls made to the collaborators, in the order they are made. *)
Inductive Call :=
| Click (elementId : string)
| FileHandler_upload (f : File)
| FetchData (endpoint : ApiEndpoint) (init : RequestInit)
| File_delete (file : SupabaseFile)
| File_commit (file : SupabaseFile)
| Toast (props : ToastProps)
| Router_push (url : Url)
| Console_error (label : string) (error : Exn)
| NotFound.

(** How the collaborators answer: [None] is a rejected promise. *)
Record Env := {
  upload_result : File → option SupabaseFile;
  fetch_result : ApiEndpoint → RequestInit → option Response;
  delete_result : SupabaseFile → bool;
  now : Date
}.

(** ** The monad of the asynchronous flows *)

Inductive Outcome (A : Type) :=
| Returned (a : A)
| Threw (e : Exn).
Arguments Returned {A} a.
Arguments Threw {A} e.

Definition M (A : Type) : Type :=
  Env → PageState → Outcome A * PageState * list Call.

#[global] Instance M_ret : MRet M := λ A a env st, (Returned a, st, []).

#[global] Instance M_bind : MBind M := λ A B k m env st,
  match m env st with
  | (Returned a, st1, t1) =>
      let '(o, st2, t2) := k a env st1 in (o, st2, t1 ++ t2)
  | (Threw e, st1, t1) => (Threw e, st1, t1)
  end.

Definition throw {A : Type} (e : Exn) : M A := λ env st, (Threw e, st, []).
Definition call (c : Call) : M unit := λ env st, (Returned (), st, [c]).
Definition get : M PageState := λ env st, (Returned st, st, []).
Definition modify (f : PageState → PageState) : M unit :=
  λ env st, (Returned (), f st, []).
Definition ask : M Env := λ env st, (Returned env, st, []).

(** [await p] for a promise of a collaborator. *)
Definition await {A : Type} (collaborator : string) (p : option A) : M A :=
  match p with
  | Some a => mret a
  | None => throw (Rejected collaborator)
  end.

(** [try { body } catch (error) { handler } finally { final }]. *)
Definition try_catch_finally {A : Type}
    (body : M A) (handler : Exn → M A) (final : M unit) : M A :=
  λ env st,
    let '(o1, st1, t1) := body env st in
    let '(o2, st2, t2) :=
      match o1 with
      | Returned a => (Returned a, st1, [])
      | Threw e => handler e env st1
      end in
    let '(o3, st3, t3) := final env st2 in
    (match o3 with Returned _ => o2 | Threw e => Threw e end,
     st3, t1 ++ t2 ++ t3).

Definition outcome {A : Type} (r : Outcome A * PageState * list Call)
  : Outcome A := r.1.1.
Definition finalState {A : Type} (r : Outcome A * PageState * list Call)
  : PageState := r.1.2.
Definition trace {A : Type} (r : Outcome A * PageState * list Call)
  : list Call := r.2.

(** *** The collaborators as computations *)

Definition fileHandler_upload (f : File) : M SupabaseFile :=
  call (FileHandler_upload f);;
  env ← ask;
  await "fileHandler.upload" (upload_result env f).

Definition fetchData (endpoint : ApiEndpoint) (init : RequestInit)
  : M Response :=
  call (FetchData endpoint init);;
  env ← ask;
  await "fetchData" (fetch_result env endpoint init).

Definition file_delete (file : SupabaseFile) : M unit :=
  call (File_delete file);;
  env ← ask;
  if delete_result env file then mret () else throw (Rejected "file.delete").

Definition file_commit (file : SupabaseFile) : M unit :=
  call (File_commit file).

Definition toast (props : ToastProps) : M unit := call (Toast props).
Definition router_push (url : Url) : M unit := call (Router_push url).

(** [notFound()] of [next/navigation] never returns: it throws. *)
Definition notFound {A : Type} : M A := call NotFound;; throw NEXT_NOT_FOUND.

(** ** Create flow: [onSubmit] of [OpenStudy] *)

(** The object literal given to [JSON.stringify]. *)
Definition createPayload (data : gmap string JValue) (fileUrl : string)
  : gmap string JValue :=
  <["year" := JNumber 2025]>
    (<["semester" := JString "Spring"]>
       (<["isRecruiting" := JBoolean true]>
          (<["imageSrc" := JString fileUrl]> data))).

Definition createInit (accessToken : string) (data : gmap string JValue)
    (fileUrl : string) : RequestInit :=
  {| method := None;
     body := Some (createPayload data fileUrl);
     headers := [("Content-Type", "application/json");
                 ("Authorization", "Bearer " +:+ accessToken)];
     credentials := Some "include";
     cache := None |}.

Definition createdToast : ToastProps :=
  {| toast_title := "스터디 생성 완료";
     toast_description := "스터디가 성공적으로 생성되었습니다.";
     toast_variant := None |}.

(** [accessToken] is [session.data.accessToken]: the handler only exists
    once the session checks of the component have passed. *)
Definition onSubmit (accessToken : string) (data : gmap string JValue)
  : M unit :=
  call (Click "closeDialog");;
  st ← get;
  match imageFile st with
  | None => mret ()
  | Some imageFile =>
      file ← fileHandler_upload imageFile;
      let fileUrl := supabaseFileData_url file in
      res ← fetchData STUDY_CREATE (createInit accessToken data fileUrl);
      if negb (ok res)
      then file_delete file
      else
        file_commit file;;
        toast createdToast;;
        router_push ROUTES_STUDY_index_url
  end.

(** ** Edit flow: loading the record in [StudyEditPage] *)

(** What [useSession()] gives: [null] while loading, [{error}], or
    [{data: {accessToken, role}}]. *)
Inductive Session :=
| SessionNull
| SessionError
| SessionData (accessToken : string) (role : option string).

(** Modelled from the spec: [HttpStatusCode.NotFound] of
    [@/app/api/utils/httpConsts], which is not part of the sources at hand;
    the retrieve endpoint answers 404 on a missing record. *)
Definition HttpStatusCode_NotFound : Z := 404.

Definition loadFailedMessage : string :=
  "스터디 정보를 불러오는 중 오류가 발생했습니다.".

Definition loadFailedToast : ToastProps :=
  {| toast_title := "스터디 정보 불러오기 실패";
     toast_description := "스터디 정보를 불러오는 중 오류가 발생했습니다.";
     toast_variant := Some "destructive" |}.

Definition retrieveInit : RequestInit :=
  {| method := None; body := None; headers := []; credentials := None;
     cache := Some "no-cache" |}.

Module JsString.
(** [s.split(sep)] for a separator of one character. *)
Fixpoint split (sep : ascii) (s : string) : list string :=
  match s with
  | EmptyString => [EmptyString]
  | String c s' =>
      if decide (c = sep) then EmptyString :: split sep s'
      else match split sep s' with
           | [] => [String c EmptyString]
           | p :: ps => String c p :: ps
           end
  end.
End JsString.

Section EditPage.

(** The built-ins [parseInt] (of a string, or of [undefined]; [None] is
    [NaN]) and [Date.prototype.setHours(hours, minutes)], which depends on
    the time zone of the browser, are taken as they come. *)
Variable parseInt : option string → option Z.
Variable Date_setHours : Date → option Z → option Z → Date.

(** [const [hours, minutes] = time.split(':'); const date = new Date();
    date.setHours(parseInt(hours), parseInt(minutes))]. *)
Definition dateOfTime (time : string) : M Date :=
  let parts := JsString.split ":" time in
  let hours := parts !! 0 in
  let minutes := parts !! 1 in
  env ← ask;
  let date := now env in
  mret (Date_setHours date (parseInt hours) (parseInt minutes)).

Definition fetchStudy (id : Z) : M unit :=
  try_catch_finally
    (res ← fetchData (STUDY_RETRIEVE id) retrieveInit;
     (if negb (ok res)
      then
        (* [switch (res.status)]: the [NotFound] case has no [break] and
           falls through to [default] *)
        (if decide (status res = HttpStatusCode_NotFound)
         then notFound else mret ());;
        throw (Error loadFailedMessage)
      else mret ());;
     studyData ← await "res.json" (json_data res);
     (* Set form values *)
     modify (setValue (V_imageSrc (study_imageSrc studyData)));;
     modify (setValue (V_title (study_title studyData)));;
     modify (setValue (V_day (study_day studyData)));;
     modify (setValue (V_startTime (study_startTime studyData)));;
     modify (setValue (V_endTime (study_endTime studyData)));;
     modify (setValue (V_campus (study_campus studyData)));;
     modify (setValue (V_level (study_level studyData)));;
     modify (setValue (V_tags (study_tags studyData)));;
     modify (setValue (V_description (study_description studyData)));;
     modify (setDescription (study_description studyData));;
     modify (setImage (study_imageSrc studyData));;
     modify (setIsRecruiting (study_isRecruiting studyData));;
     (* Set time pickers *)
     (if Js.truthy (study_startTime studyData)
      then date ← dateOfTime (study_startTime studyData);
           modify (setStartTime (Some date))
      else mret ());;
     (if Js.truthy (study_endTime studyData)
      then date ← dateOfTime (study_endTime studyData);
           modify (setEndTime (Some date))
      else mret ()))
    (λ error,
       call (Console_error "Failed to load study:" error);;
       toast loadFailedToast)
    (modify (setIsLoading false)).

(** The effect of [useEffect]: nothing without a usable session. *)
Definition loadEffect (session : Session) (id : Z) : M unit :=
  match session with
  | SessionNull | SessionError => mret ()
  | SessionData _ _ => fetchStudy id
  end.

End EditPage.

(** What [StudyEditPage] renders: a spinner while the session or the record
    loads, a redirect to the login page on a session error, the form
    otherwise. *)
Inductive View :=
| LoadingSpinner
| Redirect (url : Url)
| EditForm.

Definition StudyEditPage_render (session : Session) (st : PageState) : View :=
  match session with
  | SessionNull => LoadingSpinner
  | SessionError => Redirect ROUTES_LOGIN_url
  | SessionData _ _ => if isLoading st then LoadingSpinner else EditForm
  end.

(** ** Sample inputs *)

(** States of the tag editor. *)
Definition fourTags : PageState :=
  setCurrentTag "e" (setValue (V_tags ["a"; "b"; "c"; "d"]) initialState).

Definition enter (value : string) : KeyboardEvent :=
  {| currentTarget_value := value; key := "Enter" |}.

Definition twoTags (candidate : string) : PageState :=
  setCurrentTag candidate (setValue (V_tags ["a"; "b"]) initialState).

Definition someTagEvents : list TagEvent :=
  [TagChange "a"; TagKeyUp (enter "a"); TagChange "a"; PlusClick;
   TagChange "b"; PlusClick; TagChange " a"; TagKeyUp (enter " a")].

(** Collaborators: the storage accepts every file, the backend
    answers every request with the given response. *)
Definition coverFile : File := {| fileName := "cover.png" |}.

Definition storedCover : SupabaseFile :=
  {| supabaseFileData_url := "https://storage.example/image/study/cover.png" |}.

Definition answering (res : Response) : Env :=
  {| upload_result := λ _, Some storedCover;
     fetch_result := λ _ _, Some res;
     delete_result := λ _, true;
     now := DateAt 0 |}.

Definition created : Response :=
  {| ok := true; status := 201; json_data := None |}.
Definition serverError : Response :=
  {| ok := false; status := 500; json_data := None |}.
Definition missing : Response :=
  {| ok := false; status := 404; json_data := None |}.

(** The form data after a file was picked: [imageSrc] is the preview URL. *)
Definition previewData : gmap string JValue :=
  {[ "imageSrc" := JString "blob:preview"; "title" := JString "Rocq";
     "tags" := JStrings ["coq"] ]}.

Definition staged : PageState :=
  handleFileChange (λ _, "blob:preview") [coverFile] initialState.

(** A record as the retrieve endpoint may return it. *)
Definition sampleStudy : Study :=
  {| study_imageSrc := "https://storage.example/image/study/1/old.png";
     study_title := "Rocq"; study_day := "월";
     study_startTime := "09:30"; study_endTime := "";
     study_campus := "율전"; study_level := "초급";
     study_tags := ["coq"; "coq"]; study_description := "proofs";
     study_isRecruiting := false |}.

(** ** Reading a trace *)

Definition isUpload (c : Call) : bool :=
  match c with FileHandler_upload _ => true | _ => false end.
Definition isBackendCall (c : Call) : bool :=
  match c with FetchData _ _ => true | _ => false end.
Definition isDelete (c : Call) : bool :=
  match c with File_delete _ => true | _ => false end.
Definition isCommit (c : Call) : bool :=
  match c with File_commit _ => true | _ => false end.
Definition isToast (c : Call) : bool :=
  match c with Toast _ => true | _ => false end.
Definition isNavigation (c : Call) : bool :=
  match c with Router_push _ => true | _ => false end.

(** Every call of the trace that satisfies [Q] comes after a call that
    satisfies [P]. *)
Definition happensBefore (P Q : Call → bool) (tr : list Call) : Prop :=
  ∀ i c, tr !! i = Some c → Q c = true →
         ∃ j c', j < i ∧ tr !! j = Some c' ∧ P c' = true.

(** ** The validation schema (both pages)

    [schema] is the zod object given to [zodResolver]; what is embedded is
    whether a set of form values passes it.  [z.string()] accepts every
    string, [min] and [max] compare the [length] of the string, which counts
    UTF-16 code units, [z.enum] accepts the listed strings, and
    [z.array(z.string()).min(1)] an array of at least one string. *)

(** [s.length]: in UTF-8 a continuation byte (80..BF) adds nothing, the
    first byte of a four-byte character (F0 and above) stands for a
    surrogate pair, every other byte for one code unit. *)
Fixpoint Js_length (s : string) : nat :=
  match s with
  | EmptyString => 0
  | String c s' =>
      let n := nat_of_ascii c in
      (if bool_decide (128 ≤ n < 192) then 0
       else if bool_decide (240 ≤ n) then 2 else 1) + Js_length s'
  end.

Definition dayOptions : list string := ["월"; "화"; "수"; "목"; "금"; "토"; "일"].
Definition campusOptions : list string := ["율전"; "명륜"; "온라인"].
Definition levelOptions : list string := ["초급"; "중급"; "고급"].

Definition z_string (x : option string) : bool := bool_decide (is_Some x).

Definition z_string_min (n : nat) (x : option string) : bool :=
  match x with Some s => bool_decide (n ≤ Js_length s) | None => false end.

Definition z_string_max (n : nat) (x : option string) : bool :=
  match x with Some s => bool_decide (Js_length s ≤ n) | None => false end.

Definition z_enum (options : list string) (x : option string) : bool :=
  match x with Some s => bool_decide (s ∈ options) | None => false end.

Definition z_array_min (n : nat) (x : list string) : bool :=
  bool_decide (n ≤ length x).

Definition schema (v : Form.values) : bool :=
  z_string (Form.imageSrc v)
  && z_string_min 1 (Form.title v)
  && z_enum dayOptions (Form.day v)
  && z_string (Form.startTime v)
  && z_string (Form.endTime v)
  && z_enum campusOptions (Form.campus v)
  && z_enum levelOptions (Form.level v)
  && z_array_min 1 (Form.tags v)
  && (z_string_min 1 (Form.description v)
      && z_string_max 800 (Form.description v)).

(** ** Who may open a study: the guards of [OpenStudy] *)

Inductive OpenStudyView :=
| OpenStudy_null
| OpenStudy_redirect (url : Url)
| OpenStudy_form.

(** [session.data.role ? ['ROLE_VERIFIED', 'ROLE_ADMIN'].includes(role) :
    false]. *)
Definition canOpenStudy (role : option string) : bool :=
  match role with
  | Some r =>
      if Js.truthy r
      then bool_decide (r ∈ ["ROLE_VERIFIED"; "ROLE_ADMIN"])
      else false
  | None => false
  end.

Definition OpenStudy_render (session : Session) : OpenStudyView :=
  match session with
  | SessionNull => OpenStudy_null
  | SessionError => OpenStudy_redirect ROUTES_LOGIN_url
  | SessionData _ role =>
      if negb (canOpenStudy role)
      then OpenStudy_redirect ROUTES_STUDY_index_url
      else OpenStudy_form
  end.

(** ** A sequence of file selections *)

Definition fileRun (createObjectURL : File → string)
    (selections : list (list File)) (st : PageState) : PageState :=
  foldl (λ st targetFiles, handleFileChange createObjectURL targetFiles st)
    st selections.

(** ** Edit flow: [onSubmit] of [StudyEditPage]

    The handler uploads up to twice in one run, and the storage may answer
    the two uploads differently, so here the answer to an upload depends on
    how many uploads were made before; the trace made so far is threaded
    through the computation for that. *)

Module EditSubmit.

(** The calls [StudyEditPage] can make to its collaborators; [id] is the
    [params.id] of the page, in [API_ENDPOINTS.CLIENT.STUDY.UPDATE(id)] and
    in the path [`/mystudy/${id}`]. *)
Inductive Call :=
| FileHandler_upload (f : File)
| FetchData_UPDATE (id : Z) (init : RequestInit)
| File_delete (file : SupabaseFile)
| File_commit (file : SupabaseFile)
| Toast (props : ToastProps)
| Router_push_mystudy (id : Z)
| Console_error (label : string) (error : Exn).

Record Env := {
  upload_result : nat → File → option SupabaseFile;
  update_result : Z → RequestInit → option Response;
  delete_result : SupabaseFile → bool
}.

Definition Flow (A : Type) : Type :=
  Env → PageState → list Call → Outcome A * PageState * list Call.

#[global] Instance Flow_ret : MRet Flow := λ A a env st tr, (Returned a, st, tr).

#[global] Instance Flow_bind : MBind Flow := λ A B k m env st tr,
  match m env st tr with
  | (Returned a, st1, tr1) => k a env st1 tr1
  | (Threw e, st1, tr1) => (Threw e, st1, tr1)
  end.

Definition throw {A : Type} (e : Exn) : Flow A :=
  λ env st tr, (Threw e, st, tr).
Definition call (c : Call) : Flow unit :=
  λ env st tr, (Returned (), st, tr ++ [c]).
Definition get : Flow PageState := λ env st tr, (Returned st, st, tr).
Definition ask : Flow Env := λ env st tr, (Returned env, st, tr).
Definition history : Flow (list Call) := λ env st tr, (Returned tr, st, tr).

Definition await {A : Type} (collaborator : string) (p : option A) : Flow A :=
  match p with
  | Some a => mret a
  | None => throw (Rejected collaborator)
  end.

(** [try { body } catch (error) { handler }]. *)
Definition try_catch {A : Type} (body : Flow A) (handler : Exn → Flow A)
  : Flow A :=
  λ env st tr,
    match body env st tr with
    | (Returned a, st1, tr1) => (Returned a, st1, tr1)
    | (Threw e, st1, tr1) => handler e env st1 tr1
    end.

Definition isUpload (c : Call) : bool :=
  match c with FileHandler_upload _ => true | _ => false end.

Definition uploadsIn (tr : list Call) : nat := length (List.filter isUpload tr).

Definition fileHandler_upload (f : File) : Flow SupabaseFile :=
  before ← history;
  call (FileHandler_upload f);;
  env ← ask;
  await "fileHandler.upload" (upload_result env (uploadsIn before) f).

Definition fetchData_UPDATE (id : Z) (init : RequestInit) : Flow Response :=
  call (FetchData_UPDATE id init);;
  env ← ask;
  await "fetchData" (update_result env id init).

Definition file_delete (file : SupabaseFile) : Flow unit :=
  call (File_delete file);;
  env ← ask;
  if delete_result env file then mret () else throw (Rejected "file.delete").

Definition toast (props : ToastProps) : Flow unit := call (Toast props).

(** A property set to [undefined] is left out by [JSON.stringify]; in the
    object of the body it is absent. *)
Definition setProperty (name : string) (value : option JValue)
    (object : gmap string JValue) : gmap string JValue :=
  match value with
  | Some v => <[name := v]> object
  | None => delete name object
  end.

(** [submitData]. *)
Definition submitData (data : gmap string JValue) (fileUrl : option JValue)
    (description : string) (isRecruiting : bool) : gmap string JValue :=
  <["year" := JNumber 2025]>
    (<["semester" := JString "Spring"]>
       (<["isRecruiting" := JBoolean isRecruiting]>
          (<["description" := JString description]>
             (setProperty "imageSrc" fileUrl data)))).

Definition updateInit (accessToken : string)
    (submitData : gmap string JValue) : RequestInit :=
  {| method := Some "PUT";
     body := Some submitData;
     headers := [("Content-Type", "application/json");
                 ("Authorization", "Bearer " +:+ accessToken)];
     credentials := None;
     cache := None |}.

Definition updateFailedMessage : string :=
  "스터디 정보를 수정하는 중 오류가 발생했습니다.".

Definition updatedToast : ToastProps :=
  {| toast_title := "스터디 수정 완료";
     toast_description := "스터디 내용이 성공적으로 수정되었습니다!";
     toast_variant := None |}.

Definition updateFailedToast : ToastProps :=
  {| toast_title := "스터디 수정 실패";
     toast_description := "스터디 정보를 수정하는 중 오류가 발생했습니다.";
     toast_variant := Some "destructive" |}.

(** [session?.data?.accessToken]. *)
Definition accessTokenOf (session : Session) : option string :=
  match session with
  | SessionData accessToken _ =>
      if Js.truthy accessToken then Some accessToken else None
  | SessionNull | SessionError => None
  end.

Definition onSubmit (session : Session) (id : Z) (data : gmap string JValue)
  : Flow unit :=
  match accessTokenOf session with
  | None => mret ()
  | Some accessToken =>
      try_catch
        (st ← get;
         fileUrl ←
           match imageFile st with
           | Some imageFile =>
               file ← fileHandler_upload imageFile;
               mret (Some (JString (supabaseFileData_url file)))
           | None => mret (data !! "imageSrc")
           end;
         let submitData :=
           submitData data fileUrl (description st) (isRecruiting st) in
         res ← fetchData_UPDATE id (updateInit accessToken submitData);
         if negb (ok res)
         then
           match imageFile st with
           | Some imageFile =>
               file ← fileHandler_upload imageFile;
               file_delete file
           | None => mret ()
           end;;
           throw (Error updateFailedMessage)
         else
           toast updatedToast;;
           call (Router_push_mystudy id))
        (λ error,
           call (Console_error "Failed to update study:" error);;
           toast updateFailedToast)
  end.

(** A run from an empty trace. *)
Definition run {A : Type} (m : Flow A) (env : Env) (st : PageState)
  : Outcome A * PageState * list Call :=
  m env st [].

Definition outcome {A : Type} (r : Outcome A * PageState * list Call)
  : Outcome A := r.1.1.
Definition finalState {A : Type} (r : Outcome A * PageState * list Call)
  : PageState := r.1.2.
Definition trace {A : Type} (r : Outcome A * PageState * list Call)
  : list Call := r.2.

End EditSubmit.

(** ** Further sample inputs and readings *)

(** The message under the heading is empty, or it is the capacity message
    and the list is full. *)
Definition messageFitsList (st : PageState) : Prop :=
  stackError st = ""
  ∨ (stackError st = capacityMessage ∧ length (getValues_tags st) = 4).

Definition fillingEvents : list TagEvent :=
  [TagChange "a"; PlusClick; TagChange "b"; PlusClick; TagChange "c";
   PlusClick; TagChange "d"; PlusClick; TagChange "e";
   TagKeyUp (enter "e"); TagChange "f"; PlusClick].

Definition fiveTags : PageState :=
  setCurrentTag "f"
    (setValue (V_tags ["a"; "b"; "c"; "d"; "e"]) initialState).

Definition repeatingTags (candidate : string) : PageState :=
  setCurrentTag candidate (setValue (V_tags ["coq"; "coq"]) initialState).

Definition offline : Env :=
  {| upload_result := λ _, Some storedCover;
     fetch_result := λ _ _, None;
     delete_result := λ _, true;
     now := DateAt 0 |}.

Definition validValues : Form.values :=
  {| Form.imageSrc := Some "blob:preview"; Form.title := Some "Rocq";
     Form.day := Some "월"; Form.startTime := Some "09:00";
     Form.endTime := Some "10:00"; Form.campus := Some "온라인";
     Form.level := Some "초급"; Form.tags := ["coq"];
     Form.description := Some "proofs" |}.

Definition validForm : PageState :=
  withValues (λ _, validValues) initialState.

(** The load fails when the retrieve call is rejected, answers not ok, or
    answers ok with a body that [res.json()] rejects. *)
Definition loadFails (env : Env) (id : Z) : Prop :=
  match fetch_result env (STUDY_RETRIEVE id) retrieveInit with
  | None => True
  | Some res => ok res = false ∨ json_data res = None
  end.

(** The form values a loaded record gives. *)
Definition valuesOf (studyData : Study) : Form.values :=
  {| Form.imageSrc := Some (study_imageSrc studyData);
     Form.title := Some (study_title studyData);
     Form.day := Some (study_day studyData);
     Form.startTime := Some (study_startTime studyData);
     Form.endTime := Some (study_endTime studyData);
     Form.campus := Some (study_campus studyData);
     Form.level := Some (study_level studyData);
     Form.tags := study_tags studyData;
     Form.description := Some (study_description studyData) |}.

(** The picker a loaded time gives: none for an empty time, which leaves
    the cell as it is. *)
Definition pickerOf (parseInt : option string → option Z)
    (Date_setHours : Date → option Z → option Z → Date)
    (env : Env) (time : string) (before : option Date) : option Date :=
  if Js.truthy time
  then Some (Date_setHours (now env)
               (parseInt (JsString.split ":" time !! 0))
               (parseInt (JsString.split ":" time !! 1)))
  else before.

Definition found : Response :=
  {| ok := true; status := 200; json_data := Some sampleStudy |}.

(** A [parseInt] for the samples: the value of a string of digits. *)
Definition digitsValue (x : option string) : option Z :=
  match x with
  | Some s =>
      foldl (λ acc c,
               acc ≫= λ n,
                 let d := nat_of_ascii c in
                 if bool_decide (48 ≤ d ≤ 57)
                 then Some (10 * n + Z.of_nat (d - 48))%Z else None)
        (if bool_decide (s = "") then None else Some 0%Z)
        (String.list_ascii_of_string s)
  | None => None
  end.

(** A [setHours] for the samples: minutes since midnight, or the invalid
    date. *)
Definition minutesOfDay (date : Date) (hours minutes : option Z) : Date :=
  match hours, minutes with
  | Some h, Some m => DateAt (60 * h + m)
  | _, _ => InvalidDate
  end.

Definition isEditToast (c : EditSubmit.Call) : bool :=
  match c with EditSubmit.Toast _ => true | _ => false end.
Definition isEditCommit (c : EditSubmit.Call) : bool :=
  match c with EditSubmit.File_commit _ => true | _ => false end.
Definition isEditDelete (c : EditSubmit.Call) : bool :=
  match c with EditSubmit.File_delete _ => true | _ => false end.
Definition isEditNavigation (c : EditSubmit.Call) : bool :=
  match c with EditSubmit.Router_push_mystudy _ => true | _ => false end.

(** The request an edit submit sends: [fileUrl] is what [imageSrc] is set
    to. *)
Definition updateRequest (accessToken : string) (data : gmap string JValue)
    (fileUrl : option JValue) (st : PageState) : RequestInit :=
  EditSubmit.updateInit accessToken
    (EditSubmit.submitData data fileUrl (description st) (isRecruiting st)).

(** Sample collaborators of the edit page: the storage answers the first
    upload with [storedCover] and later ones with [second]; the backend
    answers every update with [res]. *)
Definition editSession : Session := SessionData "token" (Some "ROLE_VERIFIED").

Definition secondCover : SupabaseFile :=
  {| supabaseFileData_url := "https://storage.example/image/study/7/cover-2.png" |}.

Definition editAnswering (res : Response) (second : SupabaseFile)
  : EditSubmit.Env :=
  {| EditSubmit.upload_result :=
       λ n _, Some (if bool_decide (n = 0) then storedCover else second);
     EditSubmit.update_result := λ _ _, Some res;
     EditSubmit.delete_result := λ _, true |}.

Definition edited : PageState := setDescription "edited" initialState.

(** ** What the user can do on the edit page *)

(** [onChange] of the description [Textarea] of [StudyEditPage]. *)
Definition onDescriptionChange (target_value : string) (st : PageState)
  : PageState :=
  setValue (V_description target_value) (setDescription target_value st).

Inductive EditEvent :=
| OnTag (ev : TagEvent)
| OnStartTime (date : option Date)
| OnEndTime (date : option Date)
| OnFiles (targetFiles : list File)
| OnDescription (target_value : string)
| OnRecruiting (value : bool).

Definition editStep (formatDateToTime : Date → string)
    (createObjectURL : File → string) (st : PageState) (ev : EditEvent)
  : PageState :=
  match ev with
  | OnTag ev => tagStep st ev
  | OnStartTime date => onChangeStartTime formatDateToTime date st
  | OnEndTime date => onChangeEndTime formatDateToTime date st
  | OnFiles targetFiles => handleFileChange createObjectURL targetFiles st
  | OnDescription target_value => onDescriptionChange target_value st
  | OnRecruiting value => setIsRecruiting value st
  end.

Definition editRun (formatDateToTime : Date → string)
    (createObjectURL : File → string) (evs : list EditEvent)
    (st : PageState) : PageState :=
  foldl (editStep formatDateToTime createObjectURL) st evs.

(** The description cell and the description of the form agree. *)
Definition descriptionMirrored (st : PageState) : Prop :=
  Form.description (values st) = Some (description st).

Definition someEditEvents : list EditEvent :=
  [OnDescription "first"; OnTag (TagChange "a"); OnTag PlusClick;
   OnStartTime (Some (DateAt 0)); OnFiles [coverFile]; OnRecruiting false;
   OnDescription "second"; OnTag ResetClick; OnEndTime None].

(** ** Submitting the create form

    Both the [form] and the confirm button of [OpenStudy] run
    [handleSubmit(onSubmit)] of react-hook-form, with [zodResolver(schema)]:
    the form values are checked against the schema first; [onSubmit] is
    called, with the values, only when they pass, and otherwise the field
    errors are set and [onSubmit] is not called. *)

(** What the user can do on the create page: the tag editor, the two time
    pickers, the file input, the registered inputs [title] and
    [description], and the tabs of [day], [campus] and [level]. *)
Inductive OpenEvent :=
| OpenTag (ev : TagEvent)
| OpenStartTime (date : option Date)
| OpenEndTime (date : option Date)
| OpenFiles (targetFiles : list File)
| OpenTitle (value : string)
| OpenDay (value : string)
| OpenCampus (value : string)
| OpenLevel (value : string)
| OpenDescription (value : string).

Definition openStep (formatDateToTime : Date → string)
    (createObjectURL : File → string) (st : PageState) (ev : OpenEvent)
  : PageState :=
  match ev with
  | OpenTag ev => tagStep st ev
  | OpenStartTime date => onChangeStartTime formatDateToTime date st
  | OpenEndTime date => onChangeEndTime formatDateToTime date st
  | OpenFiles targetFiles => handleFileChange createObjectURL targetFiles st
  | OpenTitle value => setValue (V_title value) st
  | OpenDay value => setValue (V_day value) st
  | OpenCampus value => setValue (V_campus value) st
  | OpenLevel value => setValue (V_level value) st
  | OpenDescription value => setValue (V_description value) st
  end.

Definition openRun (formatDateToTime : Date → string)
    (createObjectURL : File → string) (evs : list OpenEvent)
    (st : PageState) : PageState :=
  foldl (openStep formatDateToTime createObjectURL) st evs.

(** The [required_error] of [imageSrc] in the schema. *)
Definition imageRequiredMessage : string := "이미지를 업로드해주세요".

(** The error the schema gives for [imageSrc]: [z.string] refuses
    [undefined] with the [required_error] and accepts every string. *)
Definition schema_imageSrc_error (v : Form.values) : option string :=
  match Form.imageSrc v with
  | None => Some imageRequiredMessage
  | Some _ => None
  end.

(** The values as the object given to [onSubmit]. *)
Definition formData (v : Form.values) : gmap string JValue :=
  EditSubmit.setProperty "imageSrc" (JString <$> Form.imageSrc v)
    (EditSubmit.setProperty "title" (JString <$> Form.title v)
       (EditSubmit.setProperty "day" (JString <$> Form.day v)
          (EditSubmit.setProperty "startTime" (JString <$> Form.startTime v)
             (EditSubmit.setProperty "endTime" (JString <$> Form.endTime v)
                (EditSubmit.setProperty "campus" (JString <$> Form.campus v)
                   (EditSubmit.setProperty "level" (JString <$> Form.level v)
                      (EditSubmit.setProperty "description"
                         (JString <$> Form.description v)
                         {[ "tags" := JStrings (Form.tags v) ]}))))))).

(** What a submission comes to: the values were refused (with the error of
    [imageSrc], if it has one), or [onSubmit] ran. *)
Inductive Submission :=
| Refused (imageSrcError : option string)
| Submitted (r : Outcome unit * PageState * list Call).

Definition handleSubmit_onSubmit (accessToken : string) (env : Env)
    (st : PageState) : Submission :=
  if schema (values st)
  then Submitted (onSubmit accessToken (formData (values st)) env st)
  else Refused (schema_imageSrc_error (values st)).

(** The calls a submission made to the collaborators. *)
Definition callsOf (s : Submission) : list Call :=
  match s with
  | Refused _ => []
  | Submitted r => trace r
  end.

(** The form and the staged file go together: [imageSrc] is undefined while
    no file is staged, and the object URL of the staged file otherwise. *)
Definition imageStaged (createObjectURL : File → string) (st : PageState)
  : Prop :=
  Form.imageSrc (values st) = createObjectURL <$> imageFile st.

(** Every field but the image, then the image. *)
Definition fillAllButImage : list OpenEvent :=
  [OpenTitle "Rocq"; OpenDay "월"; OpenStartTime (Some (DateAt 0));
   OpenEndTime (Some (DateAt 1)); OpenCampus "온라인"; OpenLevel "초급";
   OpenTag (TagChange "coq"); OpenTag PlusClick; OpenDescription "proofs"].

Definition filledWithoutImage : PageState :=
  openRun (λ _, "09:00") (λ _, "blob:preview") fillAllButImage initialState.

(** * Properties *)

(** ** Tag editor *)

(** *** Facts about [trim] and [Set_size] *)

Lemma trimStart_blank (s : string) :
  (∀ c, c ∈ String.list_ascii_of_string s → Js.isWhiteSpace1 c = true) →
  Js.trimStart s = "".
Proof.
  unfold Js.trimStart.
  induction s as [|c s IH]; simpl; intros Hall; [done|].
  rewrite (Hall c) by apply list_elem_of_here.
  apply IH. intros c' Hc'. apply Hall. by apply list_elem_of_further.
Qed.

(** A candidate made of spaces, tabs and line breaks only trims to the
    empty string. *)
Lemma trim_blank (s : string) :
  (∀ c, c ∈ String.list_ascii_of_string s → Js.isWhiteSpace1 c = true) →
  Js.trim s = "".
Proof.
  intros Hall. unfold Js.trim. by rewrite trimStart_blank.
Qed.

Lemma Set_size_snoc (l : list string) (c : string) :
  Js.Set_size (l ++ [c])
  = if decide (c ∈ l) then Js.Set_size l else S (Js.Set_size l).
Proof.
  unfold Js.Set_size. rewrite list_to_set_snoc_L, size_union_alt.
  destruct (decide (c ∈ l)) as [Hin|Hout].
  - rewrite subseteq_empty_difference_L, size_empty; [lia|].
    by apply singleton_subseteq_l, elem_of_list_to_set.
  - rewrite difference_disjoint_L, size_singleton; [lia|].
    by apply disjoint_singleton_l; rewrite elem_of_list_to_set.
Qed.

(** On a list without duplicates, the test of [handleDuplicateTag] holds
    exactly when the candidate is already in the list. *)
Lemma Set_size_snoc_NoDup (l : list string) (c : string) :
  NoDup l → (Js.Set_size (l ++ [c]) = length l ↔ c ∈ l).
Proof.
  intros Hnd. rewrite Set_size_snoc. unfold Js.Set_size.
  rewrite (size_list_to_set l Hnd). case_decide; split; (done || lia).
Qed.

(** *** What [handleDuplicateTag] does to the list and to the field error *)

Lemma handleDuplicateTag_tags (st : PageState) :
  getValues_tags (handleDuplicateTag st)
  = if decide (Js.Set_size (getValues_tags st ++ [currentTag st])
               = length (getValues_tags st))
    then getValues_tags st
    else getValues_tags st ++ [currentTag st].
Proof.
  unfold handleDuplicateTag. case_decide; [done|].
  unfold getValues_tags. simpl. by destruct (values st).
Qed.

Lemma handleDuplicateTag_errors (st : PageState) :
  errors_tags (handleDuplicateTag st)
  = if decide (Js.Set_size (getValues_tags st ++ [currentTag st])
               = length (getValues_tags st))
    then Some duplicateError
    else None.
Proof. unfold handleDuplicateTag. by case_decide. Qed.

Lemma handleDuplicateTag_length (st : PageState) :
  length (getValues_tags (handleDuplicateTag st))
  ≤ S (length (getValues_tags st)).
Proof.
  rewrite handleDuplicateTag_tags. case_decide; [lia|].
  rewrite length_app. simpl. lia.
Qed.

Lemma handleDuplicateTag_NoDup (st : PageState) :
  NoDup (getValues_tags st) → NoDup (getValues_tags (handleDuplicateTag st)).
Proof.
  intros Hnd. rewrite handleDuplicateTag_tags.
  case_decide as Hsz; [done|].
  apply NoDup_app. split_and!; [done| |apply NoDup_singleton].
  intros x Hx Hc. apply list_elem_of_singleton in Hc as ->.
  by apply Hsz, Set_size_snoc_NoDup.
Qed.

(** [handleTagAdd] either leaves the list alone or hands over to
    [handleDuplicateTag], which it does only below four entries... *)
Lemma handleTagAdd_tags (e : KeyboardEvent) (st : PageState) :
  getValues_tags (handleTagAdd e st) = getValues_tags st
  ∨ (length (getValues_tags st) ≠ 4
     ∧ key e = "Enter" ∧ Js.trim (currentTarget_value e) ≠ ""
     ∧ handleTagAdd e st = handleDuplicateTag st).
Proof.
  unfold handleTagAdd.
  destruct (decide (length (getValues_tags st) = 4)) as [H4|H4].
  - left. repeat case_decide; done.
  - case_decide as Hk; [|by left].
    rewrite decide_True by done. right. by destruct Hk.
Qed.

Lemma plusButton_onClick_tags (st : PageState) :
  plusButton_onClick st = st
  ∨ (length (getValues_tags st) < 4 ∧ Js.trim (currentTag st) ≠ ""
     ∧ plusButton_onClick st = handleDuplicateTag st).
Proof.
  unfold plusButton_onClick, plusButton_disabled.
  destruct (decide (Js.trim (currentTag st) = "")) as [Hb|Hb].
  - left. by rewrite bool_decide_true.
  - rewrite (bool_decide_false _ Hb). simpl. case_bool_decide; [by left|].
    right. split_and!; [lia|done..].
Qed.

Lemma tagStep_length (st : PageState) (ev : TagEvent) :
  length (getValues_tags st) ≤ 4 →
  length (getValues_tags (tagStep st ev)) ≤ 4.
Proof.
  intros Hle. destruct ev as [v|e| |]; simpl.
  - done.
  - destruct (handleTagAdd_tags e st) as [->|(Hne & _ & _ & ->)]; [done|].
    pose proof (handleDuplicateTag_length st). lia.
  - destruct (plusButton_onClick_tags st) as [->|(Hlt & _ & ->)]; [done|].
    pose proof (handleDuplicateTag_length st). lia.
  - unfold resetButton_onClick, getValues_tags. simpl.
    destruct (values st); simpl. lia.
Qed.

Lemma tagStep_NoDup (st : PageState) (ev : TagEvent) :
  NoDup (getValues_tags st) → NoDup (getValues_tags (tagStep st ev)).
Proof.
  intros Hnd. destruct ev as [v|e| |]; simpl.
  - done.
  - destruct (handleTagAdd_tags e st) as [->|(_ & _ & _ & ->)]; [done|].
    by apply handleDuplicateTag_NoDup.
  - destruct (plusButton_onClick_tags st) as [->|(_ & _ & ->)]; [done|].
    by apply handleDuplicateTag_NoDup.
  - unfold resetButton_onClick, getValues_tags. simpl.
    destruct (values st); simpl. apply NoDup_nil_2.
Qed.

(** A key release on a blank input changes neither the list nor the field
    error nor the input. *)
Lemma handleTagAdd_blank (e : KeyboardEvent) (st : PageState) :
  Js.trim (currentTarget_value e) = "" →
  getValues_tags (handleTagAdd e st) = getValues_tags st
  ∧ errors_tags (handleTagAdd e st) = errors_tags st
  ∧ currentTag (handleTagAdd e st) = currentTag st.
Proof.
  intros Hblank. unfold handleTagAdd. rewrite Hblank.
  rewrite (decide_False (P := _ ∧ _)) by (intros [_ Hne]; done).
  by case_decide.
Qed.

(** The [+] button does nothing while the input is blank. *)
Lemma plusButton_blank (st : PageState) :
  Js.trim (currentTag st) = "" → plusButton_onClick st = st.
Proof.
  intros Hblank. unfold plusButton_onClick, plusButton_disabled.
  by rewrite bool_decide_true.
Qed.

(** When [handleTagAdd] appends, the new entry is the [currentTag] cell as
    it stands, whatever [e.currentTarget.value] trims to. *)
Lemma handleTagAdd_appends_currentTag (e : KeyboardEvent) (st : PageState) :
  key e = "Enter" → Js.trim (currentTarget_value e) ≠ "" →
  length (getValues_tags st) < 4 →
  NoDup (getValues_tags st) → currentTag st ∉ getValues_tags st →
  getValues_tags (handleTagAdd e st) = getValues_tags st ++ [currentTag st].
Proof.
  intros Hkey Hne Hlt Hnd Hnew. unfold handleTagAdd.
  rewrite (decide_False (P := length _ = 4)) by lia.
  rewrite (decide_True (P := _ ∧ _)) by done.
  rewrite (decide_True (P := length _ ≠ 4)) by lia.
  rewrite handleDuplicateTag_tags. case_decide as Hsz; [|done].
  by apply Set_size_snoc_NoDup in Hsz.
Qed.

(** C4. A tag addition on a list of at most four entries leaves at most four
    entries (the same holds for every event of the tag editor); on a list of
    exactly four entries, a key release on a non-blank input sets the
    capacity message and leaves the list as it is. *)
Theorem tag_list_capacity (st : PageState) (ev : TagEvent)
    (e : KeyboardEvent) :
  length (getValues_tags st) ≤ 4 →
  length (getValues_tags (tagStep st ev)) ≤ 4
  ∧ (length (getValues_tags st) = 4 →
     Js.trim (currentTarget_value e) ≠ "" →
     stackError (handleTagAdd e st) = capacityMessage
     ∧ getValues_tags (handleTagAdd e st) = getValues_tags st).
Proof.
  intros Hle. split; [by apply tagStep_length|].
  intros H4 Hne. unfold handleTagAdd.
  rewrite (decide_True (P := length _ = 4)) by done.
  rewrite (decide_True (P := _ ≠ "")) by done.
  rewrite (decide_False (P := length _ ≠ 4)) by (intros Hc; by apply Hc).
  by case_decide.
Qed.

Lemma tag_list_capacity_witness :
  length (getValues_tags fourTags) ≤ 4
  ∧ length (getValues_tags (tagStep fourTags (TagKeyUp (enter "e")))) ≤ 4
  ∧ stackError (handleTagAdd (enter " e") fourTags) = capacityMessage
  ∧ getValues_tags (handleTagAdd (enter " e") fourTags)
    = ["a"; "b"; "c"; "d"].
Proof.
  assert (Hle : length (getValues_tags fourTags) ≤ 4) by (simpl; lia).
  destruct (tag_list_capacity fourTags (TagKeyUp (enter "e")) (enter " e") Hle)
    as [Hlen Hfull].
  split; [exact Hle|]. split; [exact Hlen|].
  apply Hfull; [reflexivity|discriminate].
Defined.

(** C5. Below four entries, a key release of Enter on a non-blank input and
    an enabled [+] button both run [handleDuplicateTag]; when the set built
    from the tags and the candidate has as many elements as the list has
    entries, the duplicate error is set and the list is kept; otherwise the
    candidate is appended and the field error is cleared.  On a list without
    duplicates the test holds exactly when the candidate is in the list. *)
Theorem handleDuplicateTag_cardinality_test (st : PageState)
    (e : KeyboardEvent) :
  length (getValues_tags st) < 4 →
  let tags := getValues_tags st in
  let candidate := currentTag st in
  (key e = "Enter" → Js.trim (currentTarget_value e) ≠ "" →
   handleTagAdd e st = handleDuplicateTag st)
  ∧ (Js.trim candidate ≠ "" → plusButton_onClick st = handleDuplicateTag st)
  ∧ (Js.Set_size (tags ++ [candidate]) = length tags →
     errors_tags (handleDuplicateTag st) = Some duplicateError
     ∧ getValues_tags (handleDuplicateTag st) = tags)
  ∧ (Js.Set_size (tags ++ [candidate]) ≠ length tags →
     getValues_tags (handleDuplicateTag st) = tags ++ [candidate]
     ∧ errors_tags (handleDuplicateTag st) = None)
  ∧ (NoDup tags →
     Js.Set_size (tags ++ [candidate]) = length tags ↔ candidate ∈ tags).
Proof.
  intros Hlt tags candidate. split_and!.
  - intros Hkey Hne. unfold handleTagAdd.
    rewrite (decide_False (P := length _ = 4)) by lia.
    rewrite (decide_True (P := _ ∧ _)) by done.
    by rewrite (decide_True (P := length _ ≠ 4)) by lia.
  - intros Hne. unfold plusButton_onClick, plusButton_disabled.
    rewrite (bool_decide_false _ Hne).
    by rewrite bool_decide_false by lia.
  - intros Hsz.
    rewrite handleDuplicateTag_errors, handleDuplicateTag_tags.
    subst tags candidate. by rewrite !decide_True by done.
  - intros Hsz.
    rewrite handleDuplicateTag_errors, handleDuplicateTag_tags.
    subst tags candidate. by rewrite !decide_False by done.
  - apply Set_size_snoc_NoDup.
Qed.

Lemma handleDuplicateTag_cardinality_test_witness :
  length (getValues_tags (twoTags "b")) < 4
  ∧ handleTagAdd (enter "b") (twoTags "b") = handleDuplicateTag (twoTags "b")
  ∧ plusButton_onClick (twoTags "b") = handleDuplicateTag (twoTags "b")
  ∧ errors_tags (handleDuplicateTag (twoTags "b")) = Some duplicateError
  ∧ getValues_tags (handleDuplicateTag (twoTags "b")) = ["a"; "b"]
  ∧ getValues_tags (handleDuplicateTag (twoTags "c")) = ["a"; "b"; "c"]
  ∧ errors_tags (handleDuplicateTag (twoTags "c")) = None.
Proof.
  assert (Hlt : ∀ c, length (getValues_tags (twoTags c)) < 4)
    by (intros c; simpl; lia).
  destruct (handleDuplicateTag_cardinality_test
              (twoTags "b") (enter "b") (Hlt "b"))
    as (Hkey & Hplus & Hdup & _ & _).
  destruct (handleDuplicateTag_cardinality_test
              (twoTags "c") (enter "c") (Hlt "c"))
    as (_ & _ & _ & Hnew & _).
  split; [exact (Hlt "b")|].
  split; [apply Hkey; [reflexivity|discriminate]|].
  split; [apply Hplus; discriminate|].
  assert (Hsame : Js.Set_size (getValues_tags (twoTags "b") ++ ["b"])
                  = length (getValues_tags (twoTags "b")))
    by (vm_compute; reflexivity).
  assert (Hmore : Js.Set_size (getValues_tags (twoTags "c") ++ ["c"])
                  ≠ length (getValues_tags (twoTags "c")))
    by (vm_compute; discriminate).
  destruct (Hdup Hsame) as [Herr Htags].
  destruct (Hnew Hmore) as [Htags' Herr'].
  split; [exact Herr|]. split; [exact Htags|].
  split; [exact Htags'|exact Herr'].
Defined.

(** C6. Starting from a list without duplicates, no sequence of events of
    the tag editor (typing, key releases, [+], [Reset]) produces a list with
    two equal entries. *)
Theorem tag_list_stays_duplicate_free (evs : list TagEvent)
    (st : PageState) :
  NoDup (getValues_tags st) → NoDup (getValues_tags (tagRun evs st)).
Proof.
  unfold tagRun. revert st.
  induction evs as [|ev evs IH]; intros st Hnd; simpl; [done|].
  by apply IH, tagStep_NoDup.
Qed.

Lemma tag_list_stays_duplicate_free_witness :
  NoDup (getValues_tags initialState)
  ∧ NoDup (getValues_tags (tagRun someTagEvents initialState)).
Proof.
  assert (Hnd : NoDup (getValues_tags initialState)) by apply NoDup_nil_2.
  split; [exact Hnd|].
  exact (tag_list_stays_duplicate_free someTagEvents initialState Hnd).
Defined.

(** C7. The entry that is appended is the input as typed, not the trimmed
    input: after typing [" react"] and releasing Enter the list holds
    [" react"], which differs from [trim " react"], and ["react"] can then
    be added next to it. *)
Theorem handleTagAdd_appends_untrimmed :
  let typed := handleTagChange " react" initialState in
  let added := handleTagAdd (enter " react") typed in
  Js.trim " react" = "react"
  ∧ getValues_tags added = [" react"]
  ∧ getValues_tags added ≠ [Js.trim " react"]
  ∧ errors_tags added = None
  ∧ getValues_tags
      (handleTagAdd (enter "react") (handleTagChange "react" added))
    = [" react"; "react"].
Proof.
  vm_compute. split_and!; (reflexivity || discriminate).
Qed.

(** ** Time selector *)

(** C9. With an undefined value the change handlers leave the whole state as
    it is, so the stored field and the picker keep a time set before; with a
    defined value the field becomes the formatted string and the picker the
    value. *)
Theorem time_change_undefined_is_noop (formatDateToTime : Date → string)
    (st : PageState) (date : Date) :
  onChangeStartTime formatDateToTime None st = st
  ∧ onChangeEndTime formatDateToTime None st = st
  ∧ Form.startTime (values (onChangeStartTime formatDateToTime (Some date) st))
    = Some (formatDateToTime date)
  ∧ startTime (onChangeStartTime formatDateToTime (Some date) st) = Some date
  ∧ Form.endTime (values (onChangeEndTime formatDateToTime (Some date) st))
    = Some (formatDateToTime date)
  ∧ endTime (onChangeEndTime formatDateToTime (Some date) st) = Some date.
Proof.
  split_and!; try reflexivity; simpl; by destruct (values st).
Qed.

(** ** Create flow *)

Ltac run_flow :=
  unfold fileHandler_upload, fetchData, file_delete, file_commit, toast,
    router_push, notFound, await, call, get, ask, modify, throw,
    mbind, M_bind, mret, M_ret;
  simpl.

(** Case analysis on a call known to be in a trace that is a list of
    known calls. *)
Ltac in_trace H :=
  unfold trace in H; simpl in H;
  repeat (apply elem_of_cons in H as [H|H]; [simplify_eq|]);
  try (by apply elem_of_nil in H).

(** The five ways [onSubmit] can go. *)

Lemma onSubmit_no_image accessToken data env st :
  imageFile st = None →
  onSubmit accessToken data env st = (Returned (), st, [Click "closeDialog"]).
Proof. intros Hfile. unfold onSubmit. run_flow. by rewrite Hfile. Qed.

Lemma onSubmit_upload_rejected accessToken data env st f :
  imageFile st = Some f → upload_result env f = None →
  onSubmit accessToken data env st
  = (Threw (Rejected "fileHandler.upload"), st,
     [Click "closeDialog"; FileHandler_upload f]).
Proof.
  intros Hfile Hup. unfold onSubmit. run_flow. rewrite Hfile. run_flow.
  by rewrite Hup.
Qed.

Lemma onSubmit_fetch_rejected accessToken data env st f file :
  imageFile st = Some f → upload_result env f = Some file →
  let init := createInit accessToken data (supabaseFileData_url file) in
  fetch_result env STUDY_CREATE init = None →
  onSubmit accessToken data env st
  = (Threw (Rejected "fetchData"), st,
     [Click "closeDialog"; FileHandler_upload f; FetchData STUDY_CREATE init]).
Proof.
  intros Hfile Hup init Hres. unfold onSubmit. run_flow. rewrite Hfile.
  run_flow. rewrite Hup. simpl. fold init. by rewrite Hres.
Qed.

Lemma onSubmit_not_ok accessToken data env st f file res :
  imageFile st = Some f → upload_result env f = Some file →
  let init := createInit accessToken data (supabaseFileData_url file) in
  fetch_result env STUDY_CREATE init = Some res → ok res = false →
  onSubmit accessToken data env st
  = (if delete_result env file then Returned ()
     else Threw (Rejected "file.delete"),
     st,
     [Click "closeDialog"; FileHandler_upload f; FetchData STUDY_CREATE init;
      File_delete file]).
Proof.
  intros Hfile Hup init Hres Hok. unfold onSubmit. run_flow. rewrite Hfile.
  run_flow. rewrite Hup. simpl. fold init. rewrite Hres. simpl.
  rewrite Hok. simpl. by destruct (delete_result env file).
Qed.

Lemma onSubmit_ok accessToken data env st f file res :
  imageFile st = Some f → upload_result env f = Some file →
  let init := createInit accessToken data (supabaseFileData_url file) in
  fetch_result env STUDY_CREATE init = Some res → ok res = true →
  onSubmit accessToken data env st
  = (Returned (), st,
     [Click "closeDialog"; FileHandler_upload f; FetchData STUDY_CREATE init;
      File_commit file; Toast createdToast;
      Router_push ROUTES_STUDY_index_url]).
Proof.
  intros Hfile Hup init Hres Hok. unfold onSubmit. run_flow. rewrite Hfile.
  run_flow. rewrite Hup. simpl. fold init. rewrite Hres. simpl.
  by rewrite Hok.
Qed.

(** With a staged file the trace starts with the click that closes the
    dialog and the upload. *)
Lemma onSubmit_starts_with_upload accessToken data env st f :
  imageFile st = Some f →
  ∃ rest, trace (onSubmit accessToken data env st)
          = Click "closeDialog" :: FileHandler_upload f :: rest.
Proof.
  intros Hfile.
  destruct (upload_result env f) as [file|] eqn:Hup.
  - destruct (fetch_result env STUDY_CREATE
                (createInit accessToken data (supabaseFileData_url file)))
      as [res|] eqn:Hres.
    + destruct (ok res) eqn:Hok.
      * erewrite onSubmit_ok by done. by eexists.
      * erewrite onSubmit_not_ok by done. by eexists.
    + erewrite onSubmit_fetch_rejected by done. by eexists.
  - erewrite onSubmit_upload_rejected by done. by eexists.
Qed.

(** A backend call in the trace of [onSubmit] is the create call made with
    the URL the upload resolved to. *)
Lemma onSubmit_backend_call accessToken data env st endpoint init :
  FetchData endpoint init ∈ trace (onSubmit accessToken data env st) →
  ∃ f file,
    imageFile st = Some f ∧ upload_result env f = Some file
    ∧ endpoint = STUDY_CREATE
    ∧ init = createInit accessToken data (supabaseFileData_url file).
Proof.
  intros Hin.
  destruct (imageFile st) as [f|] eqn:Hfile;
    [|rewrite onSubmit_no_image in Hin by done; by in_trace Hin].
  destruct (upload_result env f) as [file|] eqn:Hup;
    [|erewrite onSubmit_upload_rejected in Hin by done; by in_trace Hin].
  exists f, file.
  destruct (fetch_result env STUDY_CREATE
              (createInit accessToken data (supabaseFileData_url file)))
    as [res|] eqn:Hres;
    [|erewrite onSubmit_fetch_rejected in Hin by done; by in_trace Hin].
  destruct (ok res) eqn:Hok.
  - erewrite onSubmit_ok in Hin by done. by in_trace Hin.
  - erewrite onSubmit_not_ok in Hin by done. by in_trace Hin.
Qed.

(** C1. With a staged image, a resolved upload and a backend answer that is
    not ok, [onSubmit] clicks the dialog shut, uploads, posts and deletes the
    uploaded file; it commits nothing, shows no toast, navigates nowhere and
    leaves the page state (so the form errors) as it was. *)
Theorem onSubmit_backend_failure_rolls_back_silently
    accessToken data env st f file res :
  imageFile st = Some f →
  upload_result env f = Some file →
  fetch_result env STUDY_CREATE
    (createInit accessToken data (supabaseFileData_url file)) = Some res →
  ok res = false →
  let r := onSubmit accessToken data env st in
  trace r
  = [Click "closeDialog"; FileHandler_upload f;
     FetchData STUDY_CREATE
       (createInit accessToken data (supabaseFileData_url file));
     File_delete file]
  ∧ finalState r = st
  ∧ Forall (λ c, isCommit c = false ∧ isToast c = false
                 ∧ isNavigation c = false) (trace r).
Proof.
  intros Hfile Hup Hres Hok r. subst r.
  rewrite (onSubmit_not_ok _ _ _ _ _ _ _ Hfile Hup Hres Hok).
  split_and!; [done..|]. unfold trace. simpl.
  repeat (apply Forall_cons; split; [done|]). apply Forall_nil_2.
Qed.

Lemma onSubmit_backend_failure_rolls_back_silently_witness :
  imageFile staged = Some coverFile
  ∧ upload_result (answering serverError) coverFile = Some storedCover
  ∧ ok serverError = false
  ∧ trace (onSubmit "token" previewData (answering serverError) staged)
    = [Click "closeDialog"; FileHandler_upload coverFile;
       FetchData STUDY_CREATE
         (createInit "token" previewData (supabaseFileData_url storedCover));
       File_delete storedCover]
  ∧ finalState (onSubmit "token" previewData (answering serverError) staged)
    = staged.
Proof.
  pose proof (onSubmit_backend_failure_rolls_back_silently
                "token" previewData (answering serverError) staged
                coverFile storedCover serverError
                eq_refl eq_refl eq_refl eq_refl) as (Htrace & Hstate & _).
  split_and!; [reflexivity..|exact Htrace|exact Hstate].
Defined.

(** C2. With a staged image every backend call of [onSubmit] comes after an
    upload; when the upload resolves and the backend answers ok, the run is:
    close the dialog, upload, post, commit the uploaded file, show the
    success toast, go to the study listing, with no delete. *)
Theorem onSubmit_uploads_first_and_commits_on_success
    accessToken data env st f :
  imageFile st = Some f →
  let r := onSubmit accessToken data env st in
  happensBefore isUpload isBackendCall (trace r)
  ∧ ∀ file res,
      upload_result env f = Some file →
      fetch_result env STUDY_CREATE
        (createInit accessToken data (supabaseFileData_url file)) = Some res →
      ok res = true →
      outcome r = Returned ()
      ∧ trace r
        = [Click "closeDialog"; FileHandler_upload f;
           FetchData STUDY_CREATE
             (createInit accessToken data (supabaseFileData_url file));
           File_commit file; Toast createdToast;
           Router_push ROUTES_STUDY_index_url]
      ∧ Forall (λ c, isDelete c = false) (trace r).
Proof.
  intros Hfile r. subst r. split.
  - destruct (onSubmit_starts_with_upload accessToken data env st f Hfile)
      as [rest ->].
    intros [|[|i]] c Hc Hq; simplify_eq/=; [done..|].
    exists 1, (FileHandler_upload f). split_and!; [lia|done..].
  - intros file res Hup Hres Hok.
    rewrite (onSubmit_ok _ _ _ _ _ _ _ Hfile Hup Hres Hok).
    split_and!; [done..|]. unfold trace. simpl.
    repeat (apply Forall_cons; split; [done|]). apply Forall_nil_2.
Qed.

Lemma onSubmit_uploads_first_and_commits_on_success_witness :
  imageFile staged = Some coverFile
  ∧ happensBefore isUpload isBackendCall
      (trace (onSubmit "token" previewData (answering created) staged))
  ∧ trace (onSubmit "token" previewData (answering created) staged)
    = [Click "closeDialog"; FileHandler_upload coverFile;
       FetchData STUDY_CREATE
         (createInit "token" previewData (supabaseFileData_url storedCover));
       File_commit storedCover; Toast createdToast;
       Router_push ROUTES_STUDY_index_url].
Proof.
  pose proof (onSubmit_uploads_first_and_commits_on_success
                "token" previewData (answering created) staged coverFile
                eq_refl) as [Horder Hrun].
  split; [reflexivity|]. split; [exact Horder|].
  exact (proj1 (proj2 (Hrun storedCover created eq_refl eq_refl eq_refl))).
Defined.

(** The guard of [onSubmit]: called in a state without a staged image, it
    returns right after the click that closes the dialog; nothing is
    uploaded, the backend is not called, no toast is shown, and the page
    state is as it was. *)
Theorem onSubmit_without_image_aborts accessToken data env st :
  imageFile st = None →
  let r := onSubmit accessToken data env st in
  outcome r = Returned ()
  ∧ finalState r = st
  ∧ trace r = [Click "closeDialog"]
  ∧ Forall (λ c, isUpload c = false ∧ isBackendCall c = false
                 ∧ isToast c = false) (trace r).
Proof.
  intros Hfile r. subst r. rewrite onSubmit_no_image by done.
  split_and!; [done..|]. unfold trace. simpl.
  apply Forall_cons. split; [done|]. apply Forall_nil_2.
Qed.

(** C10. Whenever [onSubmit] calls the backend, it calls the create
    endpoint with a body whose [isRecruiting], [semester] and [year] are
    [true], ['Spring'] and [2025] and whose [imageSrc] is the URL the upload
    resolved to, whatever [data] holds under these names; every other
    property is the one of [data]. *)
Theorem create_payload_constants
    accessToken data env st endpoint init :
  FetchData endpoint init ∈ trace (onSubmit accessToken data env st) →
  ∃ f file payload,
    imageFile st = Some f
    ∧ upload_result env f = Some file
    ∧ endpoint = STUDY_CREATE
    ∧ body init = Some payload
    ∧ payload !! "isRecruiting" = Some (JBoolean true)
    ∧ payload !! "semester" = Some (JString "Spring")
    ∧ payload !! "year" = Some (JNumber 2025)
    ∧ payload !! "imageSrc" = Some (JString (supabaseFileData_url file))
    ∧ ∀ name, name ∉ ["imageSrc"; "isRecruiting"; "semester"; "year"] →
              payload !! name = data !! name.
Proof.
  intros Hin.
  destruct (onSubmit_backend_call _ _ _ _ _ _ Hin)
    as (f & file & Hfile & Hup & -> & ->).
  exists f, file, (createPayload data (supabaseFileData_url file)).
  split_and!; [done..| | | | |]; unfold createPayload.
  - do 2 rewrite lookup_insert_ne by done. by rewrite lookup_insert_eq.
  - rewrite lookup_insert_ne by done. by rewrite lookup_insert_eq.
  - by rewrite lookup_insert_eq.
  - do 3 rewrite lookup_insert_ne by done. by rewrite lookup_insert_eq.
  - intros name Hname.
    repeat (apply not_elem_of_cons in Hname as [? Hname]).
    by rewrite !lookup_insert_ne.
Qed.

Lemma create_payload_constants_witness :
  FetchData STUDY_CREATE
    (createInit "token" previewData (supabaseFileData_url storedCover))
  ∈ trace (onSubmit "token" previewData (answering created) staged)
  ∧ ∃ payload,
      body (createInit "token" previewData (supabaseFileData_url storedCover))
      = Some payload
      ∧ previewData !! "imageSrc" = Some (JString "blob:preview")
      ∧ payload !! "imageSrc"
        = Some (JString "https://storage.example/image/study/cover.png")
      ∧ payload !! "year" = Some (JNumber 2025).
Proof.
  assert (Hin : FetchData STUDY_CREATE
             (createInit "token" previewData (supabaseFileData_url storedCover))
           ∈ trace (onSubmit "token" previewData (answering created) staged)).
  { apply list_elem_of_further, list_elem_of_further, list_elem_of_here. }
  split; [exact Hin|].
  destruct (create_payload_constants _ _ _ _ _ _ Hin)
    as (f & file & payload & Hfile & Hup & _ & Hbody & _ & _ & Hyear & Hsrc & _).
  exists payload. split; [exact Hbody|]. split; [reflexivity|].
  split; [|exact Hyear].
  injection Hup as <-. exact Hsrc.
Defined.

(** ** Edit flow: loading the record *)

Section EditPageFacts.

Variable parseInt : option string → option Z.
Variable Date_setHours : Date → option Z → option Z → Date.

(** Whatever is thrown inside the [try] block of [fetchStudy] ends in the
    [catch] block. For an answer that is not ok this is the error of
    [notFound()] when the status is 404 and the generic [Error]
    otherwise; both are logged, the same toast is shown, and [finally]
    switches the spinner off. *)
Lemma fetchStudy_not_ok id env st res :
  fetch_result env (STUDY_RETRIEVE id) retrieveInit = Some res →
  ok res = false →
  fetchStudy parseInt Date_setHours id env st
  = (Returned (), setIsLoading false st,
     FetchData (STUDY_RETRIEVE id) retrieveInit
     :: (if decide (status res = HttpStatusCode_NotFound)
         then [NotFound;
               Console_error "Failed to load study:" NEXT_NOT_FOUND]
         else [Console_error "Failed to load study:"
                 (Error loadFailedMessage)])
     ++ [Toast loadFailedToast]).
Proof.
  intros Hres Hok. unfold fetchStudy, try_catch_finally. run_flow.
  rewrite Hres. simpl. rewrite Hok. simpl.
  by destruct (decide (status res = HttpStatusCode_NotFound)).
Qed.

(** C3. When the retrieve call answers 404, [notFound()] is called inside
    the [try] block and what it throws is caught there: the load returns
    normally after logging the error and showing the generic destructive
    toast, [isLoading] is switched off, and the page renders the form. *)
Theorem fetchStudy_404_is_caught_and_form_rendered
    (id : Z) (accessToken : string) (role : option string)
    (st : PageState) :
  let session := SessionData accessToken role in
  let r := loadEffect parseInt Date_setHours session id
             (answering missing) st in
  outcome r = Returned ()
  ∧ trace r
    = [FetchData (STUDY_RETRIEVE id) retrieveInit; NotFound;
       Console_error "Failed to load study:" NEXT_NOT_FOUND;
       Toast loadFailedToast]
  ∧ finalState r = setIsLoading false st
  ∧ StudyEditPage_render session (finalState r) = EditForm.
Proof.
  intros session r. subst r session. simpl.
  rewrite (fetchStudy_not_ok id (answering missing) st missing)
    by reflexivity.
  by rewrite decide_True.
Qed.

End EditPageFacts.

(** ** Runs of the model on the sample inputs *)

Example trim_examples :
  Js.trim "  re act  " = "re act" ∧ Js.trim "   " = "" ∧ Js.trim "" = ""
  ∧ Js.trim " 리액트 " = "리액트".
Proof. vm_compute. by split_and!. Qed.

Example someTagEvents_result :
  getValues_tags (tagRun someTagEvents initialState) = ["a"; "b"; " a"].
Proof. vm_compute. reflexivity. Qed.

Example fifth_tag_refused :
  let st := handleTagAdd (enter "e") fourTags in
  getValues_tags st = ["a"; "b"; "c"; "d"]
  ∧ stackError st = capacityMessage ∧ currentTag st = "".
Proof. vm_compute. by split_and!. Qed.

Example reset_clears :
  let st := resetButton_onClick (handleTagAdd (enter "e") fourTags) in
  getValues_tags st = [] ∧ stackError st = "" ∧ errors_tags st = None.
Proof. vm_compute. by split_and!. Qed.

(** A successful load hydrates the form as the record has it (here with a
    repeated tag), sets the start picker only, and ends the spinner. *)
Example fetchStudy_loads :
  let env := answering {| ok := true; status := 200;
                          json_data := Some sampleStudy |} in
  let r := fetchStudy (λ _, Some 9%Z) (λ _ _ _, DateAt 1) 1 env initialState in
  outcome r = Returned ()
  ∧ trace r = [FetchData (STUDY_RETRIEVE 1) retrieveInit]
  ∧ getValues_tags (finalState r) = ["coq"; "coq"]
  ∧ Form.startTime (values (finalState r)) = Some "09:30"
  ∧ startTime (finalState r) = Some (DateAt 1)
  ∧ endTime (finalState r) = None
  ∧ isRecruiting (finalState r) = false
  ∧ isLoading (finalState r) = false.
Proof. vm_compute. by split_and!. Qed.

(** * Further properties *)

(** ** Tag editor: the message, the input cell and loaded lists *)

Lemma Set_size_le_length (l : list string) : Js.Set_size l ≤ length l.
Proof.
  induction l as [|x l IH] using rev_ind; [done|].
  rewrite Set_size_snoc, length_app. simpl. case_decide; lia.
Qed.

(** The set built from a list has as many elements as the list has entries
    exactly when the list has no repetition. *)
Lemma Set_size_NoDup (l : list string) :
  Js.Set_size l = length l ↔ NoDup l.
Proof.
  split; [|apply size_list_to_set].
  induction l as [|x l IH] using rev_ind; [intros; apply NoDup_nil_2|].
  rewrite Set_size_snoc, length_app. simpl.
  pose proof (Set_size_le_length l). case_decide as Hin; [lia|].
  intros Hsz. apply NoDup_app. split_and!; [apply IH; lia| |apply NoDup_singleton].
  intros y Hy Hx. by apply list_elem_of_singleton in Hx as ->.
Qed.

Lemma handleDuplicateTag_stackError (st : PageState) :
  stackError (handleDuplicateTag st) = stackError st.
Proof. unfold handleDuplicateTag. by case_decide. Qed.

Lemma handleDuplicateTag_currentTag (st : PageState) :
  currentTag (handleDuplicateTag st) = "".
Proof. reflexivity. Qed.

Lemma handleTagAdd_Enter_off_four (e : KeyboardEvent) (st : PageState) :
  length (getValues_tags st) ≠ 4 →
  key e = "Enter" → Js.trim (currentTarget_value e) ≠ "" →
  handleTagAdd e st = handleDuplicateTag st.
Proof.
  intros H4 Hkey Hne. unfold handleTagAdd.
  rewrite (decide_False (P := length _ = 4)) by done.
  rewrite (decide_True (P := _ ∧ _)) by done.
  by rewrite (decide_True (P := length _ ≠ 4)) by done.
Qed.

Lemma tagStep_messageFitsList (st : PageState) (ev : TagEvent) :
  length (getValues_tags st) ≤ 4 → messageFitsList st →
  messageFitsList (tagStep st ev).
Proof.
  intros Hle Hfit. destruct ev as [v|e| |]; simpl.
  - done.
  - unfold handleTagAdd.
    destruct (decide (length (getValues_tags st) = 4)) as [H4|H4].
    + rewrite (decide_False (P := length _ ≠ 4)) by (intros Hc; by apply Hc).
      destruct (decide (Js.trim (currentTarget_value e) ≠ "")).
      * right. by case_decide.
      * left. by case_decide.
    + assert (Hempty : stackError st = "")
        by (destruct Hfit as [?|[_ ?]]; [done|lia]).
      case_decide; [|by left]. rewrite decide_True by done.
      left. by rewrite handleDuplicateTag_stackError.
  - destruct (plusButton_onClick_tags st) as [->|(Hlt & _ & ->)]; [done|].
    left. rewrite handleDuplicateTag_stackError.
    destruct Hfit as [?|[_ ?]]; [done|lia].
  - by left.
Qed.

(** X1. Over any sequence of events of the tag editor, started with at most
    four entries and a message that fits the list, the list never exceeds
    four entries and the capacity message is on display only while the list
    holds exactly four. *)
Theorem tagRun_capacity_and_message (evs : list TagEvent) (st : PageState) :
  length (getValues_tags st) ≤ 4 → messageFitsList st →
  length (getValues_tags (tagRun evs st)) ≤ 4
  ∧ messageFitsList (tagRun evs st).
Proof.
  unfold tagRun. revert st.
  induction evs as [|ev evs IH]; intros st Hle Hfit; simpl; [done|].
  apply IH; [by apply tagStep_length|by apply tagStep_messageFitsList].
Qed.

Lemma tagRun_capacity_and_message_witness :
  length (getValues_tags initialState) ≤ 4
  ∧ messageFitsList initialState
  ∧ length (getValues_tags (tagRun fillingEvents initialState)) ≤ 4
  ∧ messageFitsList (tagRun fillingEvents initialState).
Proof.
  assert (Hle : length (getValues_tags initialState) ≤ 4) by (simpl; lia).
  assert (Hfit : messageFitsList initialState) by (left; reflexivity).
  split; [exact Hle|]. split; [exact Hfit|].
  exact (tagRun_capacity_and_message fillingEvents initialState Hle Hfit).
Defined.

Lemma handleDuplicateTag_prefix (st : PageState) :
  getValues_tags st `prefix_of` getValues_tags (handleDuplicateTag st).
Proof.
  rewrite handleDuplicateTag_tags. case_decide; [done|].
  by apply prefix_app_r.
Qed.

Lemma tagStep_prefix (st : PageState) (ev : TagEvent) :
  ev ≠ ResetClick →
  getValues_tags st `prefix_of` getValues_tags (tagStep st ev).
Proof.
  intros Hev. destruct ev as [v|e| |]; simpl; [done| | |done].
  - destruct (handleTagAdd_tags e st) as [->|(_ & _ & _ & ->)]; [done|].
    apply handleDuplicateTag_prefix.
  - destruct (plusButton_onClick_tags st) as [->|(_ & _ & ->)]; [done|].
    apply handleDuplicateTag_prefix.
Qed.

(** X2. Without [Reset], the editor only ever appends: after any sequence of
    typing, key releases and clicks on [+], the list the run started with is
    still there, in the same order, at the front of the list. *)
Theorem tagRun_only_appends (evs : list TagEvent) (st : PageState) :
  Forall (λ ev, ev ≠ ResetClick) evs →
  getValues_tags st `prefix_of` getValues_tags (tagRun evs st).
Proof.
  unfold tagRun. revert st.
  induction evs as [|ev evs IH]; intros st Hevs; simpl; [done|].
  apply Forall_cons in Hevs as [Hev Hevs].
  etrans; [by apply tagStep_prefix|by apply IH].
Qed.

Lemma tagRun_only_appends_witness :
  Forall (λ ev, ev ≠ ResetClick) someTagEvents
  ∧ getValues_tags (twoTags "")
    `prefix_of` getValues_tags (tagRun someTagEvents (twoTags "")).
Proof.
  assert (Hevs : Forall (λ ev, ev ≠ ResetClick) someTagEvents)
    by (repeat (apply Forall_cons; split; [discriminate|]); apply Forall_nil_2).
  split; [exact Hevs|].
  exact (tagRun_only_appends someTagEvents (twoTags "") Hevs).
Defined.

(** X3. The guard of [handleTagAdd] compares the length with 4 by equality,
    the [+] button by [>=]: on a list of more than four entries (the edit
    page loads the list as the record has it) Enter on a non-blank input
    still runs [handleDuplicateTag] and leaves the message as it is, while
    the [+] button does nothing; so, when the list has no repeated entry and
    the candidate is not in it, the candidate is appended as a further
    entry. *)
Theorem handleTagAdd_above_four (e : KeyboardEvent) (st : PageState) :
  4 < length (getValues_tags st) →
  key e = "Enter" → Js.trim (currentTarget_value e) ≠ "" →
  handleTagAdd e st = handleDuplicateTag st
  ∧ stackError (handleTagAdd e st) = stackError st
  ∧ plusButton_onClick st = st
  ∧ (NoDup (getValues_tags st) → currentTag st ∉ getValues_tags st →
     getValues_tags (handleTagAdd e st)
     = getValues_tags st ++ [currentTag st]).
Proof.
  intros Hgt Hkey Hne.
  assert (Heq : handleTagAdd e st = handleDuplicateTag st)
    by (apply handleTagAdd_Enter_off_four; [lia|done..]).
  split_and!.
  - done.
  - by rewrite Heq, handleDuplicateTag_stackError.
  - unfold plusButton_onClick, plusButton_disabled.
    rewrite (bool_decide_true (4 ≤ _)) by lia. by rewrite orb_true_r.
  - intros Hnd Hnew. rewrite Heq, handleDuplicateTag_tags.
    case_decide as Hsz; [|done]. by apply Set_size_snoc_NoDup in Hsz.
Qed.

Lemma handleTagAdd_above_four_witness :
  4 < length (getValues_tags fiveTags)
  ∧ getValues_tags (handleTagAdd (enter "f") fiveTags)
    = ["a"; "b"; "c"; "d"; "e"; "f"]
  ∧ stackError (handleTagAdd (enter "f") fiveTags) = ""
  ∧ plusButton_onClick fiveTags = fiveTags.
Proof.
  assert (Hgt : 4 < length (getValues_tags fiveTags)) by (simpl; lia).
  assert (Hne : Js.trim (currentTarget_value (enter "f")) ≠ "")
    by (vm_compute; discriminate).
  destruct (handleTagAdd_above_four (enter "f") fiveTags Hgt eq_refl Hne)
    as (_ & Hmsg & Hplus & Happend).
  split; [exact Hgt|]. split; [|split; [exact Hmsg|exact Hplus]].
  apply Happend.
  - apply (proj1 (Set_size_NoDup _)). vm_compute. reflexivity.
  - intros Hin. apply (Set_size_snoc_NoDup _ "f") in Hin.
    + vm_compute in Hin. discriminate.
    + apply (proj1 (Set_size_NoDup _)). vm_compute. reflexivity.
Defined.

(** X4. What the test of [handleDuplicateTag] does on a list that already
    repeats an entry (a loaded list can): a candidate that is in the list is
    appended once more with the field error cleared, and a candidate that is
    not in the list is refused as a duplicate when the list has exactly one
    entry too many for its set. *)
Theorem handleDuplicateTag_on_repeating_list (st : PageState) :
  ¬ NoDup (getValues_tags st) →
  let tags := getValues_tags st in
  let candidate := currentTag st in
  (candidate ∈ tags →
   getValues_tags (handleDuplicateTag st) = tags ++ [candidate]
   ∧ errors_tags (handleDuplicateTag st) = None)
  ∧ (candidate ∉ tags → S (Js.Set_size tags) = length tags →
     getValues_tags (handleDuplicateTag st) = tags
     ∧ errors_tags (handleDuplicateTag st) = Some duplicateError).
Proof.
  intros Hrep tags candidate. subst tags candidate.
  assert (Hlt : Js.Set_size (getValues_tags st) < length (getValues_tags st)).
  { pose proof (Set_size_le_length (getValues_tags st)) as Hle.
    destruct (decide (Js.Set_size (getValues_tags st)
                      = length (getValues_tags st))) as [Heq|]; [|lia].
    by apply Set_size_NoDup in Heq. }
  rewrite handleDuplicateTag_tags, handleDuplicateTag_errors.
  rewrite Set_size_snoc. split.
  - intros Hin. rewrite (decide_True (P := _ ∈ _)) by done.
    by rewrite !decide_False by lia.
  - intros Hout Hone. rewrite (decide_False (P := _ ∈ _)) by done.
    by rewrite !decide_True by done.
Qed.

Lemma handleDuplicateTag_on_repeating_list_witness :
  ¬ NoDup (getValues_tags (repeatingTags "coq"))
  ∧ getValues_tags (handleDuplicateTag (repeatingTags "coq"))
    = ["coq"; "coq"; "coq"]
  ∧ getValues_tags (handleDuplicateTag (repeatingTags "rocq"))
    = ["coq"; "coq"]
  ∧ errors_tags (handleDuplicateTag (repeatingTags "rocq"))
    = Some duplicateError.
Proof.
  assert (Hrep : ∀ c, ¬ NoDup (getValues_tags (repeatingTags c))).
  { intros c Hnd. apply Set_size_NoDup in Hnd. vm_compute in Hnd.
    discriminate. }
  destruct (handleDuplicateTag_on_repeating_list (repeatingTags "coq")
              (Hrep "coq")) as [Hin _].
  destruct (handleDuplicateTag_on_repeating_list (repeatingTags "rocq")
              (Hrep "rocq")) as [_ Hout].
  split; [exact (Hrep "coq")|].
  split; [apply Hin, list_elem_of_here|].
  apply Hout.
  - intros Hc. apply elem_of_cons in Hc as [Hc|Hc]; [discriminate|].
    apply list_elem_of_singleton in Hc. discriminate.
  - vm_compute. reflexivity.
Defined.

(** X5. What a key release does to the input cell: Enter on a non-blank
    input always empties it, whether the candidate was appended, refused as
    a duplicate or refused for capacity; any other key release leaves the
    input, the list and the field error as they are. *)
Theorem handleTagAdd_input_cell (e : KeyboardEvent) (st : PageState) :
  (key e = "Enter" ∧ Js.trim (currentTarget_value e) ≠ "" →
   currentTag (handleTagAdd e st) = "")
  ∧ (¬ (key e = "Enter" ∧ Js.trim (currentTarget_value e) ≠ "") →
     currentTag (handleTagAdd e st) = currentTag st
     ∧ getValues_tags (handleTagAdd e st) = getValues_tags st
     ∧ errors_tags (handleTagAdd e st) = errors_tags st).
Proof.
  unfold handleTagAdd. split; intros Hk.
  - rewrite (decide_True (P := _ ∧ _)) by done.
    repeat case_decide; done.
  - rewrite (decide_False (P := _ ∧ _)) by done.
    repeat case_decide; done.
Qed.

(** X6. [Reset] and then a candidate: from any state, after [Reset], typing
    a non-blank candidate and releasing Enter leaves the list with that one
    entry (as typed), no message, no field error and an empty input. *)
Theorem reset_then_add (candidate : string) (st : PageState) :
  Js.trim candidate ≠ "" →
  let st' := tagRun [ResetClick; TagChange candidate;
                     TagKeyUp (enter candidate)] st in
  getValues_tags st' = [candidate]
  ∧ errors_tags st' = None
  ∧ stackError st' = ""
  ∧ currentTag st' = "".
Proof.
  intros Hne st'. subst st'. unfold tagRun. simpl.
  set (typed := handleTagChange candidate (resetButton_onClick st)).
  assert (Htags : getValues_tags typed = []).
  { unfold typed, resetButton_onClick, getValues_tags. simpl.
    by destruct (values st). }
  assert (Heq : handleTagAdd (enter candidate) typed = handleDuplicateTag typed)
    by (apply handleTagAdd_Enter_off_four; [by rewrite Htags|done..]).
  assert (Hsz : Js.Set_size (getValues_tags typed ++ [currentTag typed])
                ≠ length (getValues_tags typed)).
  { rewrite Htags, Set_size_snoc.
    case_decide as Hin; [by apply elem_of_nil in Hin|]. simpl. lia. }
  rewrite Heq, handleDuplicateTag_tags, handleDuplicateTag_errors,
    handleDuplicateTag_stackError.
  rewrite !decide_False by done. by rewrite Htags.
Qed.

Lemma reset_then_add_witness :
  Js.trim " rocq" ≠ ""
  ∧ getValues_tags
      (tagRun [ResetClick; TagChange " rocq"; TagKeyUp (enter " rocq")]
         fourTags) = [" rocq"]
  ∧ stackError
      (tagRun [ResetClick; TagChange " rocq"; TagKeyUp (enter " rocq")]
         fourTags) = "".
Proof.
  assert (Hne : Js.trim " rocq" ≠ "") by (vm_compute; discriminate).
  destruct (reset_then_add " rocq" fourTags Hne) as (Htags & _ & Hmsg & _).
  split; [exact Hne|]. split; [exact Htags|exact Hmsg].
Defined.

(** ** Image picker *)

Lemma fileRun_app createObjectURL (a b : list (list File)) (st : PageState) :
  fileRun createObjectURL (a ++ b) st
  = fileRun createObjectURL b (fileRun createObjectURL a st).
Proof. unfold fileRun. apply foldl_app. Qed.

Lemma fileRun_cancelled createObjectURL (n : nat) (st : PageState) :
  fileRun createObjectURL (replicate n []) st = st.
Proof. induction n as [|n IH]; [done|]. simpl. exact IH. Qed.

Lemma handleFileChange_picked createObjectURL f others (st : PageState) :
  let st' := handleFileChange createObjectURL (f :: others) st in
  imageFile st' = Some f
  ∧ image st' = createObjectURL f
  ∧ Form.imageSrc (values st') = Some (createObjectURL f).
Proof. simpl. by destruct (values st). Qed.

(** X7. After any sequence of file selections, the staged file is the first
    file of the last selection that was not empty: closing the dialog
    without a file ([n] times here) keeps it, an earlier selection is
    replaced, the other files of the selection are ignored; the preview
    cell and the form field [imageSrc] both hold its object URL. *)
Theorem fileRun_last_selection createObjectURL
    (earlier : list (list File)) (f : File) (others : list File) (n : nat)
    (st : PageState) :
  let st' := fileRun createObjectURL
               (earlier ++ [f :: others] ++ replicate n []) st in
  imageFile st' = Some f
  ∧ image st' = createObjectURL f
  ∧ Form.imageSrc (values st') = Some (createObjectURL f).
Proof.
  intros st'. subst st'.
  rewrite !fileRun_app, fileRun_cancelled.
  apply handleFileChange_picked.
Qed.

(** X8. The file [OpenStudy] uploads on submit is that file: whatever was
    selected before, the trace of [onSubmit] starts with the click that
    closes the dialog and the upload of the first file of the last
    non-empty selection. *)
Theorem onSubmit_uploads_last_selection createObjectURL
    (earlier : list (list File)) (f : File) (others : list File) (n : nat)
    accessToken data env (st : PageState) :
  ∃ rest,
    trace (onSubmit accessToken data env
             (fileRun createObjectURL
                (earlier ++ [f :: others] ++ replicate n []) st))
    = Click "closeDialog" :: FileHandler_upload f :: rest.
Proof.
  apply onSubmit_starts_with_upload.
  rewrite !fileRun_app, fileRun_cancelled.
  apply handleFileChange_picked.
Qed.

(** ** Create flow: every run *)

(** The runs of [onSubmit], one per way the collaborators can answer. *)
Lemma onSubmit_cases accessToken data env st :
  let r := onSubmit accessToken data env st in
  (imageFile st = None ∧ r = (Returned (), st, [Click "closeDialog"]))
  ∨ (∃ f,
       imageFile st = Some f
       ∧ r = (Threw (Rejected "fileHandler.upload"), st,
              [Click "closeDialog"; FileHandler_upload f]))
  ∨ (∃ f init,
       imageFile st = Some f
       ∧ r = (Threw (Rejected "fetchData"), st,
              [Click "closeDialog"; FileHandler_upload f;
               FetchData STUDY_CREATE init]))
  ∨ (∃ f init file o,
       imageFile st = Some f
       ∧ r = (o, st,
              [Click "closeDialog"; FileHandler_upload f;
               FetchData STUDY_CREATE init; File_delete file]))
  ∨ (∃ f init file,
       imageFile st = Some f
       ∧ r = (Returned (), st,
              [Click "closeDialog"; FileHandler_upload f;
               FetchData STUDY_CREATE init; File_commit file;
               Toast createdToast; Router_push ROUTES_STUDY_index_url])).
Proof.
  intros r. subst r.
  destruct (imageFile st) as [f|] eqn:Hfile;
    [|left; by rewrite onSubmit_no_image].
  right.
  destruct (upload_result env f) as [file|] eqn:Hup;
    [|left; exists f; by erewrite onSubmit_upload_rejected].
  right.
  destruct (fetch_result env STUDY_CREATE
              (createInit accessToken data (supabaseFileData_url file)))
    as [res|] eqn:Hres;
    [|left; eexists f, _; by erewrite onSubmit_fetch_rejected].
  right.
  destruct (ok res) eqn:Hok.
  - right. eexists f, _, file. by erewrite onSubmit_ok.
  - left. eexists f, _, file, _. by erewrite onSubmit_not_ok.
Qed.

(** X9. Whatever the collaborators answer, [onSubmit] of [OpenStudy] leaves
    the page state as it is (no cell is set, no form error is raised), and
    it uploads at most once and calls the backend at most once. *)
Theorem onSubmit_keeps_state_one_upload_one_call accessToken data env st :
  let r := onSubmit accessToken data env st in
  finalState r = st
  ∧ length (List.filter isUpload (trace r)) ≤ 1
  ∧ length (List.filter isBackendCall (trace r)) ≤ 1.
Proof.
  intros r.
  destruct (onSubmit_cases accessToken data env st)
    as [[_ Hr]|[(f & _ & Hr)|[(f & init & _ & Hr)
       |[(f & init & file & o & _ & Hr)|(f & init & file & _ & Hr)]]]];
    subst r; rewrite Hr; unfold finalState, trace; simpl; split_and!; (done || lia).
Qed.

(** X10. The create flow catches nothing. When the upload is rejected the
    error leaves [onSubmit] before any backend call; when the upload went
    through and the backend call is rejected, the error leaves [onSubmit]
    with the uploaded file neither deleted nor committed, and in both cases
    without a toast or a navigation. *)
Theorem onSubmit_rejections_escape accessToken data env st f :
  imageFile st = Some f →
  let r := onSubmit accessToken data env st in
  (upload_result env f = None →
   outcome r = Threw (Rejected "fileHandler.upload")
   ∧ trace r = [Click "closeDialog"; FileHandler_upload f])
  ∧ (∀ file,
       upload_result env f = Some file →
       fetch_result env STUDY_CREATE
         (createInit accessToken data (supabaseFileData_url file)) = None →
       outcome r = Threw (Rejected "fetchData")
       ∧ trace r
         = [Click "closeDialog"; FileHandler_upload f;
            FetchData STUDY_CREATE
              (createInit accessToken data (supabaseFileData_url file))]).
Proof.
  intros Hfile r. subst r. split.
  - intros Hup. by erewrite onSubmit_upload_rejected.
  - intros file Hup Hres. by erewrite onSubmit_fetch_rejected.
Qed.

Lemma onSubmit_rejections_escape_witness :
  imageFile staged = Some coverFile
  ∧ outcome (onSubmit "token" previewData offline staged)
    = Threw (Rejected "fetchData")
  ∧ trace (onSubmit "token" previewData offline staged)
    = [Click "closeDialog"; FileHandler_upload coverFile;
       FetchData STUDY_CREATE
         (createInit "token" previewData (supabaseFileData_url storedCover))].
Proof.
  destruct (onSubmit_rejections_escape "token" previewData offline staged
              coverFile eq_refl) as [_ Hnet].
  split; [reflexivity|].
  exact (Hnet storedCover eq_refl eq_refl).
Defined.

(** X11. In every run of [onSubmit] of [OpenStudy] the commit, the success
    toast and the navigation go together (all three happen or none does),
    and no run both commits and deletes the uploaded file. *)
Theorem onSubmit_commit_toast_navigation accessToken data env st :
  let tr := trace (onSubmit accessToken data env st) in
  existsb isToast tr = existsb isCommit tr
  ∧ existsb isNavigation tr = existsb isCommit tr
  ∧ existsb isCommit tr && existsb isDelete tr = false.
Proof.
  intros tr.
  destruct (onSubmit_cases accessToken data env st)
    as [[_ Hr]|[(f & _ & Hr)|[(f & init & _ & Hr)
       |[(f & init & file & o & _ & Hr)|(f & init & file & _ & Hr)]]]];
    subst tr; rewrite Hr; unfold trace; simpl; done.
Qed.

(** ** Who may open a study *)

(** X12. [OpenStudy] renders its form exactly for a session whose role is
    ROLE_VERIFIED or ROLE_ADMIN; a session with any other role, or without
    one, is redirected to the study listing, a session error to the login
    page, and nothing is rendered while the session loads. *)
Theorem OpenStudy_renders_form_for_verified_or_admin (session : Session) :
  (OpenStudy_render session = OpenStudy_form
   ↔ ∃ accessToken role,
       session = SessionData accessToken (Some role)
       ∧ (role = "ROLE_VERIFIED" ∨ role = "ROLE_ADMIN"))
  ∧ (OpenStudy_render session = OpenStudy_redirect ROUTES_STUDY_index_url
     ↔ ∃ accessToken role,
         session = SessionData accessToken role
         ∧ role ≠ Some "ROLE_VERIFIED" ∧ role ≠ Some "ROLE_ADMIN")
  ∧ (OpenStudy_render session = OpenStudy_redirect ROUTES_LOGIN_url
     ↔ session = SessionError)
  ∧ (OpenStudy_render session = OpenStudy_null ↔ session = SessionNull).
Proof.
  assert (Hcan : ∀ role,
            canOpenStudy role = true
            ↔ role = Some "ROLE_VERIFIED" ∨ role = Some "ROLE_ADMIN").
  { intros [r|]; simpl.
    - unfold Js.truthy. case_bool_decide as Hr.
      + rewrite bool_decide_eq_true, elem_of_cons, list_elem_of_singleton.
        split; (intros [H|H]; [left|right]; congruence).
      + subst r. split; [done|intros [H|H]; discriminate].
    - split; [done|intros [H|H]; discriminate]. }
  destruct session as [| |accessToken role]; simpl.
  - split_and!; split; try done; intros (? & ? & H & _); discriminate.
  - split_and!; split; try done; intros (? & ? & H & _); discriminate.
  - destruct (canOpenStudy role) eqn:Hrole; simpl.
    + apply Hcan in Hrole. split_and!; split; try done.
      * intros _. destruct Hrole as [->| ->]; eexists _, _; eauto.
      * intros (? & ? & H & Hv & Ha). injection H as _ <-.
        by destruct Hrole.
    + assert (Hno : ¬ (role = Some "ROLE_VERIFIED"
                       ∨ role = Some "ROLE_ADMIN"))
        by (rewrite <-Hcan, Hrole; done).
      split_and!; split; try done.
      * intros (? & ? & H & Hr). injection H as _ ->.
        destruct Hno. destruct Hr as [->| ->]; eauto.
      * intros _. exists accessToken, role. split_and!; [done|..];
          intros ->; apply Hno; eauto.
Qed.

(** ** The validation schema *)

Lemma schema_tags_nonempty (v : Form.values) :
  schema v = true → Form.tags v ≠ [].
Proof.
  unfold schema, z_array_min. rewrite !andb_true_iff, bool_decide_eq_true.
  intros Hs Hnil. rewrite Hnil in Hs. simpl in Hs. lia.
Qed.

Lemma schema_empty_tags (v : Form.values) :
  Form.tags v = [] → schema v = false.
Proof.
  intros Hnil. destruct (schema v) eqn:Hs; [|done].
  by apply schema_tags_nonempty in Hs.
Qed.

Lemma schema_set_tags (v : Form.values) (tags : list string) :
  schema v = true → tags ≠ [] → schema (Form_set (V_tags tags) v) = true.
Proof.
  destruct v. unfold schema. simpl. rewrite !andb_true_iff.
  intros Hs Hne. split_and!; try apply Hs.
  unfold z_array_min. apply bool_decide_eq_true.
  destruct tags; [done|simpl; lia].
Qed.

Lemma schema_set_times (v : Form.values) (startTime endTime : string) :
  schema v = true →
  schema (Form_set (V_startTime startTime)
            (Form_set (V_endTime endTime) v)) = true.
Proof.
  destruct v. unfold schema. simpl. rewrite !andb_true_iff.
  intros Hs. split_and!; try apply Hs; done.
Qed.

(** X13. What the schema does not check.  A set of values that passes keeps
    passing when its tags are replaced by any non-empty list, however long
    and with whatever repetitions, and when its two times are replaced by
    any two strings, in any order; with an empty tag list nothing passes. *)
Theorem schema_has_no_tag_cap_nor_time_order (v : Form.values)
    (tags : list string) (startTime endTime : string) :
  schema v = true → tags ≠ [] →
  schema (Form_set (V_tags tags)
            (Form_set (V_startTime startTime)
               (Form_set (V_endTime endTime) v))) = true
  ∧ schema (Form_set (V_tags []) v) = false.
Proof.
  intros Hs Hne. split.
  - by apply schema_set_tags; [apply schema_set_times|].
  - apply schema_empty_tags. by destruct v.
Qed.

Lemma schema_has_no_tag_cap_nor_time_order_witness :
  schema validValues = true
  ∧ schema (Form_set (V_tags ["a"; "a"; "b"; "c"; "d"; "e"])
              (Form_set (V_startTime "23:00")
                 (Form_set (V_endTime "not a time") validValues))) = true
  ∧ schema (Form_set (V_tags []) validValues) = false.
Proof.
  assert (Hs : schema validValues = true) by (vm_compute; reflexivity).
  split; [exact Hs|].
  apply (schema_has_no_tag_cap_nor_time_order validValues
           ["a"; "a"; "b"; "c"; "d"; "e"] "23:00" "not a time" Hs).
  discriminate.
Defined.

Lemma Form_set_tags_same (v : Form.values) :
  Form_set (V_tags (Form.tags v)) v = v.
Proof. by destruct v. Qed.

(** Events of the tag editor change the form values in the tags only. *)
Lemma tagStep_values (st : PageState) (ev : TagEvent) :
  values (tagStep st ev)
  = Form_set (V_tags (getValues_tags (tagStep st ev))) (values st).
Proof.
  destruct ev as [v|e| |]; simpl.
  - unfold getValues_tags. simpl. by rewrite Form_set_tags_same.
  - unfold handleTagAdd, handleDuplicateTag, getValues_tags.
    repeat case_decide; simpl;
      rewrite ?Form_set_tags_same; try done; by destruct (values st).
  - unfold plusButton_onClick, handleDuplicateTag, getValues_tags.
    destruct (plusButton_disabled st); repeat case_decide; simpl;
      rewrite ?Form_set_tags_same; try done; by destruct (values st).
  - unfold resetButton_onClick, getValues_tags. simpl.
    by destruct (values st).
Qed.

Lemma tagStep_schema (st : PageState) (ev : TagEvent) :
  ev ≠ ResetClick → schema (values st) = true →
  schema (values (tagStep st ev)) = true.
Proof.
  intros Hev Hs. rewrite tagStep_values. apply schema_set_tags; [done|].
  destruct (tagStep_prefix st ev Hev) as [more Hmore]. rewrite Hmore.
  apply schema_tags_nonempty in Hs. unfold getValues_tags.
  by destruct (Form.tags (values st)).
Qed.

(** X14. The tag editor and the schema: once the form values pass the
    schema, no typing, key release or click on [+] makes them fail, the
    editor never empties the list by itself; a click on [Reset] always makes
    them fail. *)
Theorem tagRun_keeps_schema_until_reset (evs : list TagEvent)
    (st : PageState) :
  schema (values st) = true →
  Forall (λ ev, ev ≠ ResetClick) evs →
  schema (values (tagRun evs st)) = true
  ∧ schema (values (tagRun (evs ++ [ResetClick]) st)) = false.
Proof.
  intros Hs Hevs.
  assert (Hkeep : schema (values (tagRun evs st)) = true).
  { unfold tagRun. revert st Hs.
    induction Hevs as [|ev evs Hev _ IH]; intros st Hs; simpl; [done|].
    by apply IH, tagStep_schema. }
  split; [done|].
  unfold tagRun. rewrite foldl_app. simpl.
  apply schema_empty_tags. unfold resetButton_onClick. simpl.
  by destruct (values (foldl tagStep st evs)).
Qed.

Lemma tagRun_keeps_schema_until_reset_witness :
  schema (values validForm) = true
  ∧ Forall (λ ev, ev ≠ ResetClick) someTagEvents
  ∧ schema (values (tagRun someTagEvents validForm)) = true
  ∧ schema (values (tagRun (someTagEvents ++ [ResetClick]) validForm)) = false.
Proof.
  assert (Hs : schema (values validForm) = true) by (vm_compute; reflexivity).
  assert (Hevs : Forall (λ ev, ev ≠ ResetClick) someTagEvents)
    by (repeat (apply Forall_cons; split; [discriminate|]); apply Forall_nil_2).
  split; [exact Hs|]. split; [exact Hevs|].
  exact (tagRun_keeps_schema_until_reset someTagEvents validForm Hs Hevs).
Defined.

(** ** Time selector: the two handlers together *)

(** X15. The start and the end handler do not interfere: they commute,
    whatever the two values (defined or not), and neither touches the field
    and the picker of the other, nor the tags. *)
Theorem time_handlers_commute (formatDateToTime : Date → string)
    (a b : option Date) (st : PageState) :
  onChangeStartTime formatDateToTime a (onChangeEndTime formatDateToTime b st)
  = onChangeEndTime formatDateToTime b (onChangeStartTime formatDateToTime a st)
  ∧ Form.endTime (values (onChangeStartTime formatDateToTime a st))
    = Form.endTime (values st)
  ∧ endTime (onChangeStartTime formatDateToTime a st) = endTime st
  ∧ Form.startTime (values (onChangeEndTime formatDateToTime b st))
    = Form.startTime (values st)
  ∧ startTime (onChangeEndTime formatDateToTime b st) = startTime st
  ∧ getValues_tags (onChangeStartTime formatDateToTime a
                      (onChangeEndTime formatDateToTime b st))
    = getValues_tags st.
Proof.
  destruct a, b, st as [[] ? ? ? ? ? ? ? ? ? ?]; by split_and!.
Qed.

(** ** Edit flow: every load *)

Lemma split_without_separator (sep : ascii) (s : string) :
  sep ∉ String.list_ascii_of_string s → JsString.split sep s = [s].
Proof.
  induction s as [|c s IH]; simpl; intros Hout; [done|].
  apply not_elem_of_cons in Hout as [Hc Hs].
  rewrite decide_False by done. by rewrite IH.
Qed.

Lemma split_at_separator (sep : ascii) (h rest : string) :
  sep ∉ String.list_ascii_of_string h →
  JsString.split sep (h +:+ String sep rest) = h :: JsString.split sep rest.
Proof.
  induction h as [|c h IH]; simpl; intros Hout.
  - by rewrite decide_True.
  - apply not_elem_of_cons in Hout as [Hc Hh].
    rewrite decide_False by done. by rewrite IH.
Qed.

Section EditPageLoads.

Variable parseInt : option string → option Z.
Variable Date_setHours : Date → option Z → option Z → Date.

Lemma fetchStudy_rejected id env st :
  fetch_result env (STUDY_RETRIEVE id) retrieveInit = None →
  fetchStudy parseInt Date_setHours id env st
  = (Returned (), setIsLoading false st,
     [FetchData (STUDY_RETRIEVE id) retrieveInit;
      Console_error "Failed to load study:" (Rejected "fetchData");
      Toast loadFailedToast]).
Proof.
  intros Hres. unfold fetchStudy, try_catch_finally. run_flow.
  by rewrite Hres.
Qed.

Lemma fetchStudy_json_rejected id env st res :
  fetch_result env (STUDY_RETRIEVE id) retrieveInit = Some res →
  ok res = true → json_data res = None →
  fetchStudy parseInt Date_setHours id env st
  = (Returned (), setIsLoading false st,
     [FetchData (STUDY_RETRIEVE id) retrieveInit;
      Console_error "Failed to load study:" (Rejected "res.json");
      Toast loadFailedToast]).
Proof.
  intros Hres Hok Hjson. unfold fetchStudy, try_catch_finally. run_flow.
  rewrite Hres. simpl. rewrite Hok. simpl. by rewrite Hjson.
Qed.

Lemma fetchStudy_loaded id env st res studyData :
  fetch_result env (STUDY_RETRIEVE id) retrieveInit = Some res →
  ok res = true → json_data res = Some studyData →
  fetchStudy parseInt Date_setHours id env st
  = (Returned (),
     {| values := valuesOf studyData;
        errors_tags := errors_tags st;
        imageFile := imageFile st;
        image := study_imageSrc studyData;
        stackError := stackError st;
        currentTag := currentTag st;
        startTime := pickerOf parseInt Date_setHours env (study_startTime studyData) (startTime st);
        endTime := pickerOf parseInt Date_setHours env (study_endTime studyData) (endTime st);
        description := study_description studyData;
        isLoading := false;
        isRecruiting := study_isRecruiting studyData |},
     [FetchData (STUDY_RETRIEVE id) retrieveInit]).
Proof.
  intros Hres Hok Hjson. unfold fetchStudy, try_catch_finally, dateOfTime.
  run_flow. rewrite Hres. simpl. rewrite Hok. simpl. rewrite Hjson. simpl.
  unfold pickerOf.
  destruct (Js.truthy (study_startTime studyData)),
    (Js.truthy (study_endTime studyData)), st as [[] ? ? ? ? ? ? ? ? ? ?];
    reflexivity.
Qed.

(** X16. Every load ends the same way for the page: [fetchStudy] never
    throws, [isLoading] is false afterwards, and with a session the page
    then renders the form, whether the record was loaded or not. *)
Theorem fetchStudy_always_ends_loading id env st :
  let r := fetchStudy parseInt Date_setHours id env st in
  outcome r = Returned ()
  ∧ isLoading (finalState r) = false
  ∧ ∀ accessToken role,
      StudyEditPage_render (SessionData accessToken role) (finalState r)
      = EditForm.
Proof.
  intros r. subst r.
  destruct (fetch_result env (STUDY_RETRIEVE id) retrieveInit)
    as [res|] eqn:Hres; [|by rewrite fetchStudy_rejected].
  destruct (ok res) eqn:Hok;
    [|by rewrite (fetchStudy_not_ok _ _ id env st res)].
  destruct (json_data res) as [studyData|] eqn:Hjson.
  - by rewrite (fetchStudy_loaded id env st res studyData).
  - by rewrite (fetchStudy_json_rejected id env st res).
Qed.

(** X17. A load that fails, for whichever reason, touches nothing but
    [isLoading]: the form values and every other cell are as before; the
    error is logged and exactly one toast, the destructive one, is shown as
    the last call. *)
Theorem fetchStudy_failure_keeps_form id env st :
  loadFails env id →
  let r := fetchStudy parseInt Date_setHours id env st in
  finalState r = setIsLoading false st
  ∧ last (trace r) = Some (Toast loadFailedToast)
  ∧ length (List.filter isToast (trace r)) = 1.
Proof.
  intros Hfail r. subst r. unfold loadFails in Hfail.
  destruct (fetch_result env (STUDY_RETRIEVE id) retrieveInit)
    as [res|] eqn:Hres; [|by rewrite fetchStudy_rejected].
  destruct (ok res) eqn:Hok.
  - destruct Hfail as [Hfail|Hjson]; [done|].
    by rewrite (fetchStudy_json_rejected id env st res).
  - rewrite (fetchStudy_not_ok _ _ id env st res) by done.
    by case_decide.
Qed.

(** X18. A load that succeeds replaces all nine form values by the fields
    of the record as they come (the tag list too, whatever its length and
    repetitions), mirrors the image, the description and the recruiting
    flag in their cells, sets a picker for each time that is not empty,
    keeps the staged file, the tag input and the messages, makes the one
    retrieve call and shows no toast. *)
Theorem fetchStudy_success_hydrates id env st res studyData :
  fetch_result env (STUDY_RETRIEVE id) retrieveInit = Some res →
  ok res = true → json_data res = Some studyData →
  let r := fetchStudy parseInt Date_setHours id env st in
  finalState r
  = {| values := valuesOf studyData;
       errors_tags := errors_tags st;
       imageFile := imageFile st;
       image := study_imageSrc studyData;
       stackError := stackError st;
       currentTag := currentTag st;
       startTime := pickerOf parseInt Date_setHours env (study_startTime studyData) (startTime st);
       endTime := pickerOf parseInt Date_setHours env (study_endTime studyData) (endTime st);
       description := study_description studyData;
       isLoading := false;
       isRecruiting := study_isRecruiting studyData |}
  ∧ getValues_tags (finalState r) = study_tags studyData
  ∧ trace r = [FetchData (STUDY_RETRIEVE id) retrieveInit].
Proof.
  intros Hres Hok Hjson r. subst r.
  by rewrite (fetchStudy_loaded id env st res studyData).
Qed.

(** X19. The time a picker is set from: for a time [h:m], and for a longer
    [h:m:rest], the hours and minutes given to [setHours] are [parseInt] of
    [h] and of [m]; for a time without a colon the minutes are [parseInt]
    of [undefined]. *)
Theorem dateOfTime_parts (h m rest : string) env st :
  ":"%char ∉ String.list_ascii_of_string h →
  ":"%char ∉ String.list_ascii_of_string m →
  let date hours minutes :=
    (Returned (Date_setHours (now env) (parseInt hours) (parseInt minutes)),
     st, @nil Call) in
  dateOfTime parseInt Date_setHours (h +:+ ":" +:+ m) env st
  = date (Some h) (Some m)
  ∧ dateOfTime parseInt Date_setHours (h +:+ ":" +:+ m +:+ ":" +:+ rest) env st
    = date (Some h) (Some m)
  ∧ dateOfTime parseInt Date_setHours h env st = date (Some h) None.
Proof.
  intros Hh Hm date. subst date. unfold dateOfTime. run_flow.
  change (":" +:+ m) with (String ":" m).
  change (":" +:+ m +:+ ":" +:+ rest) with (String ":" (m +:+ String ":" rest)).
  rewrite (split_at_separator _ h m Hh).
  rewrite (split_at_separator _ h (m +:+ String ":" rest) Hh).
  rewrite (split_at_separator _ m rest Hm).
  rewrite (split_without_separator _ m Hm).
  by rewrite (split_without_separator _ h Hh).
Qed.

End EditPageLoads.

(** X20. Without a session that holds data the effect of the edit page
    makes no call and leaves the state alone, and whatever the state the
    page does not render the form: the spinner while the session loads, the
    redirect to the login page on a session error. *)
Theorem loadEffect_needs_session parseInt Date_setHours
    (session : Session) id env st :
  (∀ accessToken role, session ≠ SessionData accessToken role) →
  loadEffect parseInt Date_setHours session id env st = (Returned (), st, [])
  ∧ ∀ st', StudyEditPage_render session st' ≠ EditForm.
Proof.
  intros Hno. destruct session as [| |accessToken role]; [done..|].
  by destruct (Hno accessToken role).
Qed.

Lemma fetchStudy_failure_keeps_form_witness :
  loadFails (answering serverError) 7
  ∧ finalState (fetchStudy (λ _, None) (λ date _ _, date) 7
                  (answering serverError) staged)
    = setIsLoading false staged
  ∧ length (List.filter isToast
              (trace (fetchStudy (λ _, None) (λ date _ _, date) 7
                        (answering serverError) staged))) = 1.
Proof.
  assert (Hfail : loadFails (answering serverError) 7)
    by (left; reflexivity).
  destruct (fetchStudy_failure_keeps_form (λ _, None) (λ date _ _, date) 7
              (answering serverError) staged Hfail) as (Hstate & _ & Hone).
  split; [exact Hfail|]. split; [exact Hstate|exact Hone].
Defined.

Lemma fetchStudy_success_hydrates_witness :
  ok found = true
  ∧ getValues_tags (finalState (fetchStudy (λ _, Some 9%Z) (λ _ _ _, DateAt 1)
                                  7 (answering found) staged))
    = ["coq"; "coq"]
  ∧ trace (fetchStudy (λ _, Some 9%Z) (λ _ _ _, DateAt 1) 7
             (answering found) staged)
    = [FetchData (STUDY_RETRIEVE 7) retrieveInit].
Proof.
  destruct (fetchStudy_success_hydrates (λ _, Some 9%Z) (λ _ _ _, DateAt 1)
              7 (answering found) staged found sampleStudy
              eq_refl eq_refl eq_refl) as (_ & Htags & Htrace).
  split; [reflexivity|]. split; [exact Htags|exact Htrace].
Defined.

Lemma dateOfTime_parts_witness :
  (":"%char ∉ String.list_ascii_of_string "09")
  ∧ (":"%char ∉ String.list_ascii_of_string "30")
  ∧ dateOfTime digitsValue minutesOfDay "09:30" (answering found) staged
    = (Returned (DateAt 570), staged, [])
  ∧ dateOfTime digitsValue minutesOfDay "09:30:15" (answering found) staged
    = (Returned (DateAt 570), staged, [])
  ∧ dateOfTime digitsValue minutesOfDay "09" (answering found) staged
    = (Returned InvalidDate, staged, []).
Proof.
  assert (Hh : ":"%char ∉ String.list_ascii_of_string "09")
    by (apply (bool_decide_unpack _); vm_compute; exact I).
  assert (Hm : ":"%char ∉ String.list_ascii_of_string "30")
    by (apply (bool_decide_unpack _); vm_compute; exact I).
  destruct (dateOfTime_parts digitsValue minutesOfDay "09" "30" "15"
              (answering found) staged Hh Hm) as (H2 & H3 & H1).
  split; [exact Hh|]. split; [exact Hm|].
  split; [exact H2|]. split; [exact H3|exact H1].
Defined.

Lemma loadEffect_needs_session_witness :
  (∀ accessToken role, SessionError ≠ SessionData accessToken role)
  ∧ loadEffect digitsValue minutesOfDay SessionError 7 (answering found) staged
    = (Returned (), staged, [])
  ∧ StudyEditPage_render SessionError (setIsLoading false staged) ≠ EditForm.
Proof.
  assert (Hno : ∀ accessToken role,
            SessionError ≠ SessionData accessToken role)
    by (intros accessToken role; discriminate).
  destruct (loadEffect_needs_session digitsValue minutesOfDay SessionError 7
              (answering found) staged Hno) as [Hrun Hview].
  split; [exact Hno|]. split; [exact Hrun|apply Hview].
Defined.

(** ** Edit flow: [onSubmit] *)

Ltac run_edit :=
  unfold EditSubmit.run, EditSubmit.onSubmit, EditSubmit.try_catch,
    EditSubmit.fileHandler_upload, EditSubmit.fetchData_UPDATE,
    EditSubmit.file_delete, EditSubmit.toast, EditSubmit.await,
    EditSubmit.call, EditSubmit.get, EditSubmit.ask, EditSubmit.history,
    EditSubmit.throw, mbind, EditSubmit.Flow_bind, mret, EditSubmit.Flow_ret;
  simpl.

Section EditSubmitRuns.

Variables (session : Session) (accessToken : string) (id : Z).
Variables (data : gmap string JValue) (env : EditSubmit.Env).
Variable st : PageState.
Hypothesis Htoken : EditSubmit.accessTokenOf session = Some accessToken.

Let r := EditSubmit.run (EditSubmit.onSubmit session id data) env st.

(** Runs without a newly picked file. *)

Lemma edit_kept_rejected :
  imageFile st = None →
  let init := updateRequest accessToken data (data !! "imageSrc") st in
  EditSubmit.update_result env id init = None →
  r = (Returned (), st,
       [EditSubmit.FetchData_UPDATE id init;
        EditSubmit.Console_error "Failed to update study:"
          (Rejected "fetchData");
        EditSubmit.Toast EditSubmit.updateFailedToast]).
Proof.
  intros Hfile init Hres. subst r. unfold updateRequest in *. run_edit. rewrite Htoken. run_edit.
  rewrite Hfile. simpl. subst init. by rewrite Hres.
Qed.

Lemma edit_kept_not_ok res :
  imageFile st = None →
  let init := updateRequest accessToken data (data !! "imageSrc") st in
  EditSubmit.update_result env id init = Some res → ok res = false →
  r = (Returned (), st,
       [EditSubmit.FetchData_UPDATE id init;
        EditSubmit.Console_error "Failed to update study:"
          (Error EditSubmit.updateFailedMessage);
        EditSubmit.Toast EditSubmit.updateFailedToast]).
Proof.
  intros Hfile init Hres Hok. subst r. unfold updateRequest in *. run_edit. rewrite Htoken. run_edit.
  rewrite Hfile. simpl. subst init. rewrite Hres. simpl. by rewrite Hok.
Qed.

Lemma edit_kept_ok res :
  imageFile st = None →
  let init := updateRequest accessToken data (data !! "imageSrc") st in
  EditSubmit.update_result env id init = Some res → ok res = true →
  r = (Returned (), st,
       [EditSubmit.FetchData_UPDATE id init;
        EditSubmit.Toast EditSubmit.updatedToast;
        EditSubmit.Router_push_mystudy id]).
Proof.
  intros Hfile init Hres Hok. subst r. unfold updateRequest in *. run_edit. rewrite Htoken. run_edit.
  rewrite Hfile. simpl. subst init. rewrite Hres. simpl. by rewrite Hok.
Qed.

(** Runs with a newly picked file [f]. *)

Lemma edit_new_upload_rejected f :
  imageFile st = Some f → EditSubmit.upload_result env 0 f = None →
  r = (Returned (), st,
       [EditSubmit.FileHandler_upload f;
        EditSubmit.Console_error "Failed to update study:"
          (Rejected "fileHandler.upload");
        EditSubmit.Toast EditSubmit.updateFailedToast]).
Proof.
  intros Hfile Hup. subst r. unfold updateRequest in *. run_edit. rewrite Htoken. run_edit.
  rewrite Hfile. simpl. unfold EditSubmit.uploadsIn. simpl. by rewrite Hup.
Qed.

Lemma edit_new_rejected f file :
  imageFile st = Some f → EditSubmit.upload_result env 0 f = Some file →
  let init := updateRequest accessToken data
                (Some (JString (supabaseFileData_url file))) st in
  EditSubmit.update_result env id init = None →
  r = (Returned (), st,
       [EditSubmit.FileHandler_upload f;
        EditSubmit.FetchData_UPDATE id init;
        EditSubmit.Console_error "Failed to update study:"
          (Rejected "fetchData");
        EditSubmit.Toast EditSubmit.updateFailedToast]).
Proof.
  intros Hfile Hup init Hres. subst r. unfold updateRequest in *. run_edit. rewrite Htoken. run_edit.
  rewrite Hfile. simpl. unfold EditSubmit.uploadsIn. simpl. rewrite Hup.
  simpl. subst init. by rewrite Hres.
Qed.

Lemma edit_new_ok f file res :
  imageFile st = Some f → EditSubmit.upload_result env 0 f = Some file →
  let init := updateRequest accessToken data
                (Some (JString (supabaseFileData_url file))) st in
  EditSubmit.update_result env id init = Some res → ok res = true →
  r = (Returned (), st,
       [EditSubmit.FileHandler_upload f;
        EditSubmit.FetchData_UPDATE id init;
        EditSubmit.Toast EditSubmit.updatedToast;
        EditSubmit.Router_push_mystudy id]).
Proof.
  intros Hfile Hup init Hres Hok. subst r. unfold updateRequest in *. run_edit. rewrite Htoken.
  run_edit. rewrite Hfile. simpl. unfold EditSubmit.uploadsIn. simpl.
  rewrite Hup. simpl. subst init. rewrite Hres. simpl. by rewrite Hok.
Qed.

Lemma edit_new_not_ok_upload_rejected f file res :
  imageFile st = Some f → EditSubmit.upload_result env 0 f = Some file →
  let init := updateRequest accessToken data
                (Some (JString (supabaseFileData_url file))) st in
  EditSubmit.update_result env id init = Some res → ok res = false →
  EditSubmit.upload_result env 1 f = None →
  r = (Returned (), st,
       [EditSubmit.FileHandler_upload f;
        EditSubmit.FetchData_UPDATE id init;
        EditSubmit.FileHandler_upload f;
        EditSubmit.Console_error "Failed to update study:"
          (Rejected "fileHandler.upload");
        EditSubmit.Toast EditSubmit.updateFailedToast]).
Proof.
  intros Hfile Hup init Hres Hok Hup'. subst r. unfold updateRequest in *. run_edit. rewrite Htoken.
  run_edit. rewrite Hfile. simpl. unfold EditSubmit.uploadsIn. simpl.
  rewrite Hup. simpl. subst init. rewrite Hres. simpl. rewrite Hok. simpl.
  by rewrite Hup'.
Qed.

Lemma edit_new_not_ok f file res file' :
  imageFile st = Some f → EditSubmit.upload_result env 0 f = Some file →
  let init := updateRequest accessToken data
                (Some (JString (supabaseFileData_url file))) st in
  EditSubmit.update_result env id init = Some res → ok res = false →
  EditSubmit.upload_result env 1 f = Some file' →
  r = (Returned (), st,
       [EditSubmit.FileHandler_upload f;
        EditSubmit.FetchData_UPDATE id init;
        EditSubmit.FileHandler_upload f;
        EditSubmit.File_delete file';
        EditSubmit.Console_error "Failed to update study:"
          (if EditSubmit.delete_result env file'
           then Error EditSubmit.updateFailedMessage
           else Rejected "file.delete");
        EditSubmit.Toast EditSubmit.updateFailedToast]).
Proof.
  intros Hfile Hup init Hres Hok Hup'. subst r. unfold updateRequest in *. run_edit. rewrite Htoken.
  run_edit. rewrite Hfile. simpl. unfold EditSubmit.uploadsIn. simpl.
  rewrite Hup. simpl. subst init. rewrite Hres. simpl. rewrite Hok. simpl.
  rewrite Hup'. simpl.
  by destruct (EditSubmit.delete_result env file').
Qed.

(** Every run with a token is one of the above. *)
Lemma edit_runs :
  (∃ init e,
     r = (Returned (), st,
          [EditSubmit.FetchData_UPDATE id init;
           EditSubmit.Console_error "Failed to update study:" e;
           EditSubmit.Toast EditSubmit.updateFailedToast]))
  ∨ (∃ init,
       r = (Returned (), st,
            [EditSubmit.FetchData_UPDATE id init;
             EditSubmit.Toast EditSubmit.updatedToast;
             EditSubmit.Router_push_mystudy id]))
  ∨ (∃ f e,
       r = (Returned (), st,
            [EditSubmit.FileHandler_upload f;
             EditSubmit.Console_error "Failed to update study:" e;
             EditSubmit.Toast EditSubmit.updateFailedToast]))
  ∨ (∃ f init e,
       r = (Returned (), st,
            [EditSubmit.FileHandler_upload f;
             EditSubmit.FetchData_UPDATE id init;
             EditSubmit.Console_error "Failed to update study:" e;
             EditSubmit.Toast EditSubmit.updateFailedToast]))
  ∨ (∃ f init,
       r = (Returned (), st,
            [EditSubmit.FileHandler_upload f;
             EditSubmit.FetchData_UPDATE id init;
             EditSubmit.Toast EditSubmit.updatedToast;
             EditSubmit.Router_push_mystudy id]))
  ∨ (∃ f init e,
       r = (Returned (), st,
            [EditSubmit.FileHandler_upload f;
             EditSubmit.FetchData_UPDATE id init;
             EditSubmit.FileHandler_upload f;
             EditSubmit.Console_error "Failed to update study:" e;
             EditSubmit.Toast EditSubmit.updateFailedToast]))
  ∨ (∃ f init file' e,
       r = (Returned (), st,
            [EditSubmit.FileHandler_upload f;
             EditSubmit.FetchData_UPDATE id init;
             EditSubmit.FileHandler_upload f;
             EditSubmit.File_delete file';
             EditSubmit.Console_error "Failed to update study:" e;
             EditSubmit.Toast EditSubmit.updateFailedToast])).
Proof.
  destruct (imageFile st) as [f|] eqn:Hfile.
  - do 2 right.
    destruct (EditSubmit.upload_result env 0 f) as [file|] eqn:Hup;
      [|left; eexists f, _; by apply edit_new_upload_rejected].
    right.
    destruct (EditSubmit.update_result env id
                (updateRequest accessToken data
                   (Some (JString (supabaseFileData_url file))) st))
      as [res|] eqn:Hres;
      [|left; eexists f, _, _; by eapply edit_new_rejected].
    right. destruct (ok res) eqn:Hok;
      [left; eexists f, _; by eapply edit_new_ok|].
    right.
    destruct (EditSubmit.upload_result env 1 f) as [file'|] eqn:Hup'.
    + right. eexists f, _, file', _. by eapply edit_new_not_ok.
    + left. eexists f, _, _. by eapply edit_new_not_ok_upload_rejected.
  - destruct (EditSubmit.update_result env id
                (updateRequest accessToken data (data !! "imageSrc") st))
      as [res|] eqn:Hres;
      [|left; eexists _, _; by apply edit_kept_rejected].
    destruct (ok res) eqn:Hok.
    + right. left. eexists. by eapply edit_kept_ok.
    + left. eexists _, _. by eapply edit_kept_not_ok.
Qed.

End EditSubmitRuns.

Lemma edit_no_token session id data env st :
  EditSubmit.accessTokenOf session = None →
  EditSubmit.run (EditSubmit.onSubmit session id data) env st
  = (Returned (), st, []).
Proof.
  intros Hnone. unfold EditSubmit.run, EditSubmit.onSubmit.
  by rewrite Hnone.
Qed.

Lemma submitData_lookup data fileUrl description isRecruiting :
  let payload := EditSubmit.submitData data fileUrl description isRecruiting in
  payload !! "imageSrc" = fileUrl
  ∧ payload !! "description" = Some (JString description)
  ∧ payload !! "isRecruiting" = Some (JBoolean isRecruiting)
  ∧ payload !! "semester" = Some (JString "Spring")
  ∧ payload !! "year" = Some (JNumber 2025)
  ∧ ∀ name,
      name ∉ ["imageSrc"; "description"; "isRecruiting"; "semester"; "year"] →
      payload !! name = data !! name.
Proof.
  intros payload. subst payload. unfold EditSubmit.submitData. split_and!.
  - do 4 rewrite lookup_insert_ne by done.
    destruct fileUrl as [v|]; simpl;
      [by rewrite lookup_insert_eq|by rewrite lookup_delete_eq].
  - do 3 rewrite lookup_insert_ne by done. by rewrite lookup_insert_eq.
  - do 2 rewrite lookup_insert_ne by done. by rewrite lookup_insert_eq.
  - rewrite lookup_insert_ne by done. by rewrite lookup_insert_eq.
  - by rewrite lookup_insert_eq.
  - intros name Hname.
    repeat (apply not_elem_of_cons in Hname as [? Hname]).
    do 4 rewrite lookup_insert_ne by done.
    destruct fileUrl as [v|]; simpl;
      [by rewrite lookup_insert_ne|by rewrite lookup_delete_ne].
Qed.

(** X21. [onSubmit] of the edit page never throws and never changes the
    page state; without an access token in the session it does nothing at
    all, with one it shows exactly one toast, whatever the collaborators
    answer; and it never commits an uploaded file. *)
Theorem edit_onSubmit_never_throws session id data env st :
  let r := EditSubmit.run (EditSubmit.onSubmit session id data) env st in
  EditSubmit.outcome r = Returned ()
  ∧ EditSubmit.finalState r = st
  ∧ length (List.filter isEditToast (EditSubmit.trace r))
    = match EditSubmit.accessTokenOf session with Some _ => 1 | None => 0 end
  ∧ existsb isEditCommit (EditSubmit.trace r) = false
  ∧ (EditSubmit.accessTokenOf session = None → EditSubmit.trace r = []).
Proof.
  intros r. subst r.
  destruct (EditSubmit.accessTokenOf session) as [accessToken|] eqn:Htoken;
    [|by rewrite edit_no_token].
  destruct (edit_runs session accessToken id data env st Htoken)
    as [(init & e & ->)|[(init & ->)|[(f & e & ->)|[(f & init & e & ->)
       |[(f & init & ->)|[(f & init & e & ->)|(f & init & file' & e & ->)]]]]]];
    by split_and!.
Qed.

(** X22. An update without a newly picked image that the backend accepts:
    nothing is uploaded; the one call is the PUT, whose body has the
    [imageSrc] of the form data as it was, the description and the
    recruiting flag of the page cells (not those of the form data), and the
    constants ['Spring'] and [2025]; then the success toast and the
    navigation to the page of the record. *)
Theorem edit_onSubmit_reuses_image session accessToken id data env st res :
  EditSubmit.accessTokenOf session = Some accessToken →
  imageFile st = None →
  let payload :=
    EditSubmit.submitData data (data !! "imageSrc")
      (description st) (isRecruiting st) in
  EditSubmit.update_result env id (EditSubmit.updateInit accessToken payload)
  = Some res →
  ok res = true →
  EditSubmit.trace (EditSubmit.run (EditSubmit.onSubmit session id data) env st)
  = [EditSubmit.FetchData_UPDATE id
       (EditSubmit.updateInit accessToken payload);
     EditSubmit.Toast EditSubmit.updatedToast;
     EditSubmit.Router_push_mystudy id]
  ∧ payload !! "imageSrc" = data !! "imageSrc"
  ∧ payload !! "description" = Some (JString (description st))
  ∧ payload !! "isRecruiting" = Some (JBoolean (isRecruiting st))
  ∧ payload !! "semester" = Some (JString "Spring")
  ∧ payload !! "year" = Some (JNumber 2025).
Proof.
  intros Htoken Hfile payload Hres Hok.
  rewrite (edit_kept_ok session accessToken id data env st Htoken res
             Hfile Hres Hok).
  destruct (submitData_lookup data (data !! "imageSrc")
              (description st) (isRecruiting st))
    as (Hsrc & Hdesc & Hrec & Hsem & Hyear & _).
  by split_and!.
Qed.

(** X23. An update with a newly picked image that the backend accepts: the
    file is uploaded once, before the PUT; the body of the PUT has the URL
    of the uploaded file as [imageSrc], whatever the form data held; the
    success toast and the navigation follow, and the uploaded file is
    neither deleted nor committed. *)
Theorem edit_onSubmit_uploads_new_image
    session accessToken id data env st f file res :
  EditSubmit.accessTokenOf session = Some accessToken →
  imageFile st = Some f →
  EditSubmit.upload_result env 0 f = Some file →
  let payload :=
    EditSubmit.submitData data (Some (JString (supabaseFileData_url file)))
      (description st) (isRecruiting st) in
  EditSubmit.update_result env id (EditSubmit.updateInit accessToken payload)
  = Some res →
  ok res = true →
  let tr := EditSubmit.trace (EditSubmit.run (EditSubmit.onSubmit session id data)
                     env st) in
  tr = [EditSubmit.FileHandler_upload f;
        EditSubmit.FetchData_UPDATE id
          (EditSubmit.updateInit accessToken payload);
        EditSubmit.Toast EditSubmit.updatedToast;
        EditSubmit.Router_push_mystudy id]
  ∧ payload !! "imageSrc" = Some (JString (supabaseFileData_url file))
  ∧ existsb isEditDelete tr = false
  ∧ existsb isEditCommit tr = false.
Proof.
  intros Htoken Hfile Hup payload Hres Hok tr. subst tr.
  rewrite (edit_new_ok session accessToken id data env st Htoken f file res
             Hfile Hup Hres Hok).
  destruct (submitData_lookup data (Some (JString (supabaseFileData_url file)))
              (description st) (isRecruiting st)) as (Hsrc & _).
  by split_and!.
Qed.

(** X24. An update with a newly picked image that the backend refuses: the
    file is uploaded a second time and it is the file of that second upload
    that is deleted; the file of the first upload, whose URL the refused
    request carried, is not deleted unless the storage answered both
    uploads with the same file.  The error is logged and the destructive
    toast shown. *)
Theorem edit_onSubmit_failure_deletes_second_upload
    session accessToken id data env st f file res file' :
  EditSubmit.accessTokenOf session = Some accessToken →
  imageFile st = Some f →
  EditSubmit.upload_result env 0 f = Some file →
  let init :=
    EditSubmit.updateInit accessToken
      (EditSubmit.submitData data
         (Some (JString (supabaseFileData_url file)))
         (description st) (isRecruiting st)) in
  EditSubmit.update_result env id init = Some res →
  ok res = false →
  EditSubmit.upload_result env 1 f = Some file' →
  let tr := EditSubmit.trace (EditSubmit.run (EditSubmit.onSubmit session id data)
                     env st) in
  tr = [EditSubmit.FileHandler_upload f;
        EditSubmit.FetchData_UPDATE id init;
        EditSubmit.FileHandler_upload f;
        EditSubmit.File_delete file';
        EditSubmit.Console_error "Failed to update study:"
          (if EditSubmit.delete_result env file'
           then Error EditSubmit.updateFailedMessage
           else Rejected "file.delete");
        EditSubmit.Toast EditSubmit.updateFailedToast]
  ∧ (file ≠ file' → EditSubmit.File_delete file ∉ tr).
Proof.
  intros Htoken Hfile Hup init Hres Hok Hup' tr. subst tr.
  rewrite (edit_new_not_ok session accessToken id data env st Htoken
             f file res file' Hfile Hup Hres Hok Hup').
  split; [done|]. intros Hne Hin. unfold EditSubmit.trace in Hin. simpl in Hin.
  repeat (apply elem_of_cons in Hin as [Hin|Hin]; [by simplify_eq|]).
  by apply elem_of_nil in Hin.
Qed.

(** X25. When the backend accepts no update (every answer to the PUT is a
    rejection or not ok), every run with a token ends with the error logged
    and the destructive toast as its last two calls, and has neither the
    success toast nor a navigation. *)
Theorem edit_onSubmit_failure_ends_in_toast
    session accessToken id data env st :
  EditSubmit.accessTokenOf session = Some accessToken →
  (∀ init res, EditSubmit.update_result env id init = Some res →
               ok res = false) →
  let tr := EditSubmit.trace (EditSubmit.run (EditSubmit.onSubmit session id data)
                     env st) in
  (∃ before e,
     tr = before
          ++ [EditSubmit.Console_error "Failed to update study:" e;
              EditSubmit.Toast EditSubmit.updateFailedToast])
  ∧ existsb isEditNavigation tr = false
  ∧ EditSubmit.Toast EditSubmit.updatedToast ∉ tr.
Proof.
  intros Htoken Hrefuse tr. subst tr.
  assert (Hfinish : ∀ tr before e,
    tr = before
         ++ [EditSubmit.Console_error "Failed to update study:" e;
             EditSubmit.Toast EditSubmit.updateFailedToast] →
    Forall (λ c, isEditNavigation c = false ∧ isEditToast c = false) before →
    (∃ before' e',
       tr = before'
            ++ [EditSubmit.Console_error "Failed to update study:" e';
                EditSubmit.Toast EditSubmit.updateFailedToast])
    ∧ existsb isEditNavigation tr = false
    ∧ EditSubmit.Toast EditSubmit.updatedToast ∉ tr).
  { intros tr before e -> Hbefore. split_and!.
    - by exists before, e.
    - rewrite existsb_app. simpl. rewrite orb_false_r.
      apply not_true_iff_false. rewrite existsb_exists.
      intros (c & Hc & Hnav). rewrite Forall_forall in Hbefore.
      apply list_elem_of_In, Hbefore in Hc as [Hc _]. congruence.
    - rewrite elem_of_app. intros [Hc|Hc].
      + rewrite Forall_forall in Hbefore. by apply Hbefore in Hc as [_ Hc].
      + apply elem_of_cons in Hc as [Hc|Hc]; [done|].
        by apply list_elem_of_singleton in Hc. }
  destruct (imageFile st) as [f|] eqn:Hfile.
  - destruct (EditSubmit.upload_result env 0 f) as [file|] eqn:Hup.
    + destruct (EditSubmit.update_result env id
                  (updateRequest accessToken data
                     (Some (JString (supabaseFileData_url file))) st))
        as [res|] eqn:Hres.
      * pose proof (Hrefuse _ _ Hres) as Hok.
        destruct (EditSubmit.upload_result env 1 f) as [file'|] eqn:Hup'.
        -- rewrite (edit_new_not_ok session accessToken id data env st Htoken
                      f file res file' Hfile Hup Hres Hok Hup').
           refine (Hfinish _ [_; _; _; _] _ eq_refl _). by repeat constructor.
        -- rewrite (edit_new_not_ok_upload_rejected session accessToken id
                      data env st Htoken f file res Hfile Hup Hres Hok Hup').
           refine (Hfinish _ [_; _; _] _ eq_refl _). by repeat constructor.
      * rewrite (edit_new_rejected session accessToken id data env st Htoken
                   f file Hfile Hup Hres).
        refine (Hfinish _ [_; _] _ eq_refl _). by repeat constructor.
    + rewrite (edit_new_upload_rejected session accessToken id data env st
                 Htoken f Hfile Hup).
      refine (Hfinish _ [_] _ eq_refl _). by repeat constructor.
  - destruct (EditSubmit.update_result env id
                (updateRequest accessToken data (data !! "imageSrc") st))
      as [res|] eqn:Hres.
    + pose proof (Hrefuse _ _ Hres) as Hok.
      rewrite (edit_kept_not_ok session accessToken id data env st Htoken
                 res Hfile Hres Hok).
      refine (Hfinish _ [_] _ eq_refl _). by repeat constructor.
    + rewrite (edit_kept_rejected session accessToken id data env st Htoken
                 Hfile Hres).
      refine (Hfinish _ [_] _ eq_refl _). by repeat constructor.
Qed.

Lemma edit_onSubmit_reuses_image_witness :
  EditSubmit.accessTokenOf editSession = Some "token"
  ∧ imageFile edited = None
  ∧ EditSubmit.trace
      (EditSubmit.run (EditSubmit.onSubmit editSession 7 previewData)
         (editAnswering created secondCover) edited)
    = [EditSubmit.FetchData_UPDATE 7
         (EditSubmit.updateInit "token"
            (EditSubmit.submitData previewData (previewData !! "imageSrc")
               "edited" true));
       EditSubmit.Toast EditSubmit.updatedToast;
       EditSubmit.Router_push_mystudy 7]
  ∧ EditSubmit.submitData previewData (previewData !! "imageSrc")
      "edited" true !! "imageSrc"
    = previewData !! "imageSrc".
Proof.
  destruct (edit_onSubmit_reuses_image editSession "token" 7 previewData
              (editAnswering created secondCover) edited created
              eq_refl eq_refl eq_refl eq_refl) as (Htrace & Hsrc & _).
  split; [reflexivity|]. split; [reflexivity|].
  split; [exact Htrace|exact Hsrc].
Defined.

Lemma edit_onSubmit_uploads_new_image_witness :
  imageFile staged = Some coverFile
  ∧ EditSubmit.upload_result (editAnswering created secondCover) 0 coverFile
    = Some storedCover
  ∧ EditSubmit.submitData previewData
      (Some (JString (supabaseFileData_url storedCover)))
      (description staged) (isRecruiting staged) !! "imageSrc"
    = Some (JString (supabaseFileData_url storedCover))
  ∧ existsb isEditDelete
      (EditSubmit.trace
         (EditSubmit.run (EditSubmit.onSubmit editSession 7 previewData)
            (editAnswering created secondCover) staged)) = false.
Proof.
  destruct (edit_onSubmit_uploads_new_image editSession "token" 7 previewData
              (editAnswering created secondCover) staged coverFile
              storedCover created eq_refl eq_refl eq_refl eq_refl eq_refl)
    as (_ & Hsrc & Hdel & _).
  split; [reflexivity|]. split; [reflexivity|].
  split; [exact Hsrc|exact Hdel].
Defined.

Lemma edit_onSubmit_failure_deletes_second_upload_witness :
  ok serverError = false
  ∧ storedCover ≠ secondCover
  ∧ EditSubmit.File_delete secondCover
    ∈ EditSubmit.trace
        (EditSubmit.run (EditSubmit.onSubmit editSession 7 previewData)
           (editAnswering serverError secondCover) staged)
  ∧ EditSubmit.File_delete storedCover
    ∉ EditSubmit.trace
        (EditSubmit.run (EditSubmit.onSubmit editSession 7 previewData)
           (editAnswering serverError secondCover) staged).
Proof.
  destruct (edit_onSubmit_failure_deletes_second_upload editSession "token" 7
              previewData (editAnswering serverError secondCover) staged
              coverFile storedCover serverError secondCover
              eq_refl eq_refl eq_refl eq_refl eq_refl eq_refl)
    as [Htrace Hfirst].
  assert (Hne : storedCover ≠ secondCover) by discriminate.
  split; [reflexivity|]. split; [exact Hne|].
  split; [|exact (Hfirst Hne)].
  rewrite Htrace. do 3 apply list_elem_of_further. apply list_elem_of_here.
Defined.

Lemma edit_onSubmit_failure_ends_in_toast_witness :
  (∀ init res,
     EditSubmit.update_result (editAnswering serverError secondCover) 7 init
     = Some res → ok res = false)
  ∧ existsb isEditNavigation
      (EditSubmit.trace
         (EditSubmit.run (EditSubmit.onSubmit editSession 7 previewData)
            (editAnswering serverError secondCover) edited)) = false
  ∧ EditSubmit.Toast EditSubmit.updatedToast
    ∉ EditSubmit.trace
        (EditSubmit.run (EditSubmit.onSubmit editSession 7 previewData)
           (editAnswering serverError secondCover) edited).
Proof.
  assert (Hrefuse : ∀ init res,
            EditSubmit.update_result
              (editAnswering serverError secondCover) 7 init = Some res →
            ok res = false).
  { intros init res Hres. injection Hres as <-. reflexivity. }
  destruct (edit_onSubmit_failure_ends_in_toast editSession "token" 7
              previewData (editAnswering serverError secondCover) edited
              eq_refl Hrefuse) as (_ & Hnav & Htoast).
  split; [exact Hrefuse|]. split; [exact Hnav|exact Htoast].
Defined.

Example Js_length_examples :
  Js_length "" = 0 ∧ Js_length "proofs" = 6 ∧ Js_length "리액트" = 3
  ∧ Js_length "a😀" = 3.
Proof. vm_compute. by split_and!. Qed.

Example OpenStudy_render_examples :
  OpenStudy_render (SessionData "token" (Some "ROLE_ADMIN")) = OpenStudy_form
  ∧ OpenStudy_render (SessionData "token" (Some "ROLE_MEMBER"))
    = OpenStudy_redirect ROUTES_STUDY_index_url
  ∧ OpenStudy_render (SessionData "token" None)
    = OpenStudy_redirect ROUTES_STUDY_index_url.
Proof. vm_compute. by split_and!. Qed.

(** ** Edit page: the description and its mirror *)

Lemma tagStep_description (st : PageState) (ev : TagEvent) :
  description (tagStep st ev) = description st
  ∧ Form.description (values (tagStep st ev)) = Form.description (values st).
Proof.
  split.
  - destruct ev as [v|e| |]; simpl; [done| | |done].
    + unfold handleTagAdd, handleDuplicateTag. repeat case_decide; done.
    + unfold plusButton_onClick, handleDuplicateTag.
      destruct (plusButton_disabled st); repeat case_decide; done.
  - rewrite tagStep_values. by destruct (values st).
Qed.

Lemma editStep_descriptionMirrored formatDateToTime createObjectURL
    (st : PageState) (ev : EditEvent) :
  descriptionMirrored st →
  descriptionMirrored (editStep formatDateToTime createObjectURL st ev).
Proof.
  unfold descriptionMirrored. intros Hm.
  destruct ev as [ev|[d|]|[d|]|[|f fs]|v|b]; simpl; try done.
  - destruct (tagStep_description st ev) as [-> ->]. done.
  - by destruct (values st).
  - by destruct (values st).
  - by destruct (values st).
  - by destruct (values st).
Qed.

(** X26. On the edit page the description cell, which [onSubmit] sends,
    and the description of the form, which the schema validates, are made
    equal by typing in the description and by a successful load, from any
    state (the initial one, where they differ, included), and no event of
    the page (tags, times, files, recruiting buttons) separates them once
    they are equal. *)
Theorem description_stays_mirrored formatDateToTime createObjectURL
    (evs : list EditEvent) (st : PageState) :
  (descriptionMirrored st →
   descriptionMirrored (editRun formatDateToTime createObjectURL evs st))
  ∧ (∀ target_value,
       descriptionMirrored
         (editRun formatDateToTime createObjectURL
            (OnDescription target_value :: evs) st))
  ∧ (∀ parseInt Date_setHours id env res studyData,
       fetch_result env (STUDY_RETRIEVE id) retrieveInit = Some res →
       ok res = true → json_data res = Some studyData →
       descriptionMirrored
         (editRun formatDateToTime createObjectURL evs
            (finalState (fetchStudy parseInt Date_setHours id env st)))).
Proof.
  assert (Hrun : ∀ st', descriptionMirrored st' →
            descriptionMirrored
              (editRun formatDateToTime createObjectURL evs st')).
  { unfold editRun. induction evs as [|ev evs IH]; intros st' Hm; [done|].
    simpl. by apply IH, editStep_descriptionMirrored. }
  split_and!.
  - apply Hrun.
  - intros v. unfold editRun. simpl. apply Hrun.
    unfold descriptionMirrored, onDescriptionChange. simpl.
    by destruct (values st).
  - intros parseInt Date_setHours id env res studyData Hres Hok Hjson.
    apply Hrun.
    by rewrite (fetchStudy_loaded parseInt Date_setHours id env st res
                  studyData Hres Hok Hjson).
Qed.

Lemma description_stays_mirrored_witness :
  ¬ descriptionMirrored initialState
  ∧ descriptionMirrored
      (editRun (λ _, "09:00") (λ _, "blob:preview")
         (OnDescription "edited" :: someEditEvents) initialState)
  ∧ descriptionMirrored
      (editRun (λ _, "09:00") (λ _, "blob:preview") someEditEvents
         (finalState (fetchStudy digitsValue minutesOfDay 7
                        (answering found) initialState)))
  ∧ descriptionMirrored
      (editRun (λ _, "09:00") (λ _, "blob:preview") someEditEvents
         (onDescriptionChange "edited" initialState)).
Proof.
  destruct (description_stays_mirrored (λ _, "09:00") (λ _, "blob:preview")
              someEditEvents initialState) as (_ & Htyped & Hloaded).
  destruct (description_stays_mirrored (λ _, "09:00") (λ _, "blob:preview")
              someEditEvents (onDescriptionChange "edited" initialState))
    as (Hkept & _ & _).
  split; [discriminate|]. split; [exact (Htyped "edited")|].
  split; [|exact (Hkept eq_refl)].
  exact (Hloaded digitsValue minutesOfDay 7%Z (answering found) found
           sampleStudy eq_refl eq_refl eq_refl).
Defined.

(** ** The duplicate test on a list that repeats an entry *)

(** C5, as stated, fails on a list of fewer than four entries that repeats
    an entry (the edit page can load one): on the list [coq, coq] the set
    built from the tags and the new candidate [rocq] has as many elements
    as the list has entries although [rocq] duplicates no entry, and it is
    refused with the duplicate error; the candidate [coq], which does
    duplicate an entry, is appended and the error cleared. *)
Lemma handleDuplicateTag_gloss_fails_on_repeating_list :
  ¬ (∀ st : PageState,
       length (getValues_tags st) < 4 →
       (Js.Set_size (getValues_tags st ++ [currentTag st])
        = length (getValues_tags st)
        ↔ currentTag st ∈ getValues_tags st)
       ∧ (currentTag st ∈ getValues_tags st →
          errors_tags (handleDuplicateTag st) = Some duplicateError
          ∧ getValues_tags (handleDuplicateTag st) = getValues_tags st)
       ∧ (currentTag st ∉ getValues_tags st →
          getValues_tags (handleDuplicateTag st)
          = getValues_tags st ++ [currentTag st]
          ∧ errors_tags (handleDuplicateTag st) = None)).
Proof.
  intros Hclaim.
  assert (Hlt : length (getValues_tags (repeatingTags "rocq")) < 4)
    by (simpl; lia).
  destruct (Hclaim (repeatingTags "rocq") Hlt) as (_ & _ & Hnew).
  assert (Hout : currentTag (repeatingTags "rocq")
                 ∉ getValues_tags (repeatingTags "rocq")).
  { intros Hin. apply elem_of_cons in Hin as [Hin|Hin]; [discriminate|].
    apply list_elem_of_singleton in Hin. discriminate. }
  destruct (Hnew Hout) as [_ Herr]. vm_compute in Herr. discriminate.
Qed.

(** ** Create flow: submitting without an image *)

Lemma tagStep_imageFile (st : PageState) (ev : TagEvent) :
  imageFile (tagStep st ev) = imageFile st.
Proof.
  destruct ev as [v|e| |]; simpl; [done| | |done].
  - unfold handleTagAdd, handleDuplicateTag. repeat case_decide; done.
  - unfold plusButton_onClick, handleDuplicateTag.
    destruct (plusButton_disabled st); repeat case_decide; done.
Qed.

Lemma openStep_imageStaged formatDateToTime createObjectURL
    (st : PageState) (ev : OpenEvent) :
  imageStaged createObjectURL st →
  imageStaged createObjectURL
    (openStep formatDateToTime createObjectURL st ev).
Proof.
  unfold imageStaged. intros Hst.
  destruct ev as [ev|[d|]|[d|]|[|f fs]|v|v|v|v|v]; simpl; try done;
    try (by destruct (values st)).
  rewrite tagStep_imageFile, tagStep_values. by destruct (values st).
Qed.

Lemma openRun_imageStaged formatDateToTime createObjectURL
    (evs : list OpenEvent) (st : PageState) :
  imageStaged createObjectURL st →
  imageStaged createObjectURL
    (openRun formatDateToTime createObjectURL evs st).
Proof.
  unfold openRun. revert st.
  induction evs as [|ev evs IH]; intros st Hst; simpl; [done|].
  by apply IH, openStep_imageStaged.
Qed.

Lemma schema_needs_imageSrc (v : Form.values) :
  Form.imageSrc v = None → schema v = false.
Proof. intros Hnone. unfold schema, z_string. by rewrite Hnone. Qed.

(** C8 (amended). On the create page, in every state the user can reach, a
    submission made while no image file is staged stops at the validation:
    [imageSrc] is undefined, the schema refuses the values with the required
    error of [imageSrc], [onSubmit] is not called, and so nothing is
    uploaded, the backend is not called and no toast is shown.  The guard
    inside [onSubmit], which would return right after closing the dialog,
    is not reached. *)
Theorem create_submit_without_image_is_refused
    formatDateToTime createObjectURL (evs : list OpenEvent)
    accessToken env :
  let st := openRun formatDateToTime createObjectURL evs initialState in
  imageFile st = None →
  Form.imageSrc (values st) = None
  ∧ schema (values st) = false
  ∧ handleSubmit_onSubmit accessToken env st
    = Refused (Some imageRequiredMessage)
  ∧ callsOf (handleSubmit_onSubmit accessToken env st) = []
  ∧ ∀ data,
      onSubmit accessToken data env st
      = (Returned (), st, [Click "closeDialog"]).
Proof.
  intros st Hfile.
  assert (Hsrc : Form.imageSrc (values st) = None).
  { pose proof (openRun_imageStaged formatDateToTime createObjectURL evs
                  initialState eq_refl) as Hst.
    fold st in Hst. unfold imageStaged in Hst. by rewrite Hfile in Hst. }
  assert (Hschema : schema (values st) = false)
    by by apply schema_needs_imageSrc.
  unfold handleSubmit_onSubmit, schema_imageSrc_error.
  rewrite Hschema, Hsrc. split_and!; [done..|].
  intros data. by apply onSubmit_no_image.
Qed.

Lemma create_submit_without_image_is_refused_witness :
  imageFile filledWithoutImage = None
  ∧ schema (values filledWithoutImage) = false
  ∧ handleSubmit_onSubmit "token" (answering created) filledWithoutImage
    = Refused (Some imageRequiredMessage)
  ∧ callsOf (handleSubmit_onSubmit "token" (answering created)
               filledWithoutImage) = [].
Proof.
  destruct (create_submit_without_image_is_refused
              (λ _, "09:00") (λ _, "blob:preview") fillAllButImage
              "token" (answering created) eq_refl)
    as (_ & Hschema & Hrefused & Hcalls & _).
  split; [reflexivity|]. split; [exact Hschema|].
  split; [exact Hrefused|exact Hcalls].
Defined.

(** C8, as stated, fails: with every field filled in and no image staged,
    the submission does produce a validation error, the required error of
    [imageSrc]; once a file is picked the same values pass the schema and
    [onSubmit] runs (and uploads). *)
Lemma submit_without_image_raises_validation_error :
  imageFile filledWithoutImage = None
  ∧ handleSubmit_onSubmit "token" (answering created) filledWithoutImage
    = Refused (Some "이미지를 업로드해주세요")
  ∧ schema (values (handleFileChange (λ _, "blob:preview") [coverFile]
                      filledWithoutImage)) = true
  ∧ callsOf (handleSubmit_onSubmit "token" (answering created)
               (handleFileChange (λ _, "blob:preview") [coverFile]
                  filledWithoutImage))
    = [Click "closeDialog"; FileHandler_upload coverFile;
       FetchData STUDY_CREATE
         (createInit "token"
            (formData (values (handleFileChange (λ _, "blob:preview")
                                 [coverFile] filledWithoutImage)))
            (supabaseFileData_url storedCover));
       File_commit storedCover; Toast createdToast;
       Router_push ROUTES_STUDY_index_url].
Proof.
  split; [reflexivity|]. split; [by vm_compute|].
  split; [by vm_compute|]. reflexivity.
Qed.
